(** * openrelik-worker-tsk: the [command] task of [src/tasks.py]

    A shallow embedding of the Celery task that classifies input files by
    their display name, spawns the matching Sleuth Kit command for each
    of them and aggregates the produced output files into a task result.

    Modelling choices.
    - Python [str] is [string] (a sequence of 8-bit characters);
      [str.lower] folds the ASCII letters [A]-[Z] and leaves every other
      character alone.
    - Python dicts are [gmap]s with string keys: the [commands] registry,
      the [task_config] and every input-file dictionary.
    - The task body runs in a small state-and-exception monad over a
      [World] that records the files opened for writing and the processes
      spawned; whether [open] and [subprocess.Popen] succeed is decided by
      an environment [Env]. *)

From Stdlib Require Import Ascii String List Bool Arith Lia.
From stdpp Require Import base option list strings gmap pretty.

Import ListNotations.

(** ** Strings *)

Module Str.

(** [c.lower()] on one character: [A]-[Z] are moved to [a]-[z]. *)
Definition lower_ascii (c : ascii) : ascii :=
  let n := nat_of_ascii c in
  if (65 <=? n) && (n <=? 90) then ascii_of_nat (n + 32) else c.

(** [s.lower()] on a string of 8-bit characters: the ASCII letters are
    folded one by one. Python also folds the letters of other scripts, some
    of them by their neighbours; that part of [str.lower] is outside this
    model, which agrees with Python on ASCII strings. *)
Fixpoint lower (s : string) : string :=
  match s with
  | EmptyString => EmptyString
  | String c s' => String (lower_ascii c) (lower s')
  end.

(** [s.startswith(t)] *)
Fixpoint startswith (t s : string) : bool :=
  match t, s with
  | EmptyString, _ => true
  | String a t', String b s' => if ascii_dec a b then startswith t' s' else false
  | String _ _, EmptyString => false
  end.

(** [t in s] for two strings: [t] occurs in [s] at some offset. *)
Fixpoint contains (t s : string) : bool :=
  startswith t s ||
  match s with
  | EmptyString => false
  | String _ s' => contains t s'
  end.

(** The specification of [t in s]: [s] splits around an occurrence of [t]. *)
Definition is_substring (t s : string) : Prop :=
  exists pre post : string, s = pre +:+ t +:+ post.

(** [sep.join(parts)] *)
Fixpoint join (sep : string) (parts : list string) : string :=
  match parts with
  | [] => ""
  | [x] => x
  | x :: rest => x +:+ sep +:+ join sep rest
  end.

End Str.

(** ** Data model *)

(** An input file is a dictionary; the task reads its ["display_name"]
    and ["path"] entries. The entries are strings: a dictionary that holds
    [None] or another kind of value under a key is outside this model (on
    a ["display_name"] of [None] line 84 raises [AttributeError]). *)
Abbreviation InputFile := (gmap string string) (only parsing).

(** The task configuration: the task reads its ["artifact_types"] entry,
    a list of type identifiers. *)
Abbreviation TaskConfig := (gmap string (list string)) (only parsing).

(** Modelled from the spec: the output-file descriptor that
    [openrelik_worker_common.file_utils.create_output_file] returns and that
    [to_dict] serialises (the library is not part of this repository): a
    path, a display name, an extension and a data-type tag. *)
Record OutputFile := mkOutputFile {
  path : string;
  display_name : option string;
  extension : string;
  data_type : string
}.

(** Modelled from the spec: the record that
    [openrelik_worker_common.task_utils.create_task_result] builds from its
    four keyword arguments, before it is serialised. *)
Record TaskResult := mkTaskResult {
  output_files : list OutputFile;
  workflow_id : option string;
  command_summary : string;
  meta : gmap string string
}.

Definition create_task_result (output_files : list OutputFile)
    (workflow_id : option string) (command : string)
    (meta : gmap string string) : TaskResult :=
  mkTaskResult output_files workflow_id command meta.

(** The exceptions the task body can raise. *)
Inductive exception :=
  | RuntimeError (msg : string)
  | KeyError (key : string)
  | AttributeError
  | TypeError
  | OSError.

(** ** The world outside the task *)

(** What the task does to its surroundings: [next_uuid] names the next
    output file, [opened] lists the paths opened for writing and [spawned]
    the processes started, each with the path its standard output goes to. *)
Record World := mkWorld {
  next_uuid : nat;
  opened : list string;
  spawned : list (list string * string)
}.

(** Whether the operating system lets a file be opened for writing and a
    process be started. *)
Record Env := mkEnv {
  can_open : World -> string -> bool;
  can_spawn : World -> list string -> bool
}.

(** ** State and exceptions *)

Definition M (A : Type) : Type := World -> (exception + A) * World.

Definition ret {A} (a : A) : M A := fun w => (inr a, w).

Definition raise {A} (e : exception) : M A := fun w => (inl e, w).

Definition bind {A B} (c : M A) (k : A -> M B) : M B :=
  fun w =>
    match c w with
    | (inl e, w') => (inl e, w')
    | (inr a, w') => k a w'
    end.

Notation "x <~ c ;; k" := (bind c (fun x => k))
  (at level 100, c at next level, right associativity).

(** [[f(x) for x in xs]] for an [f] that may raise. *)
Fixpoint for_list {A B} (f : A -> M B) (xs : list A) : M (list B) :=
  match xs with
  | [] => ret []
  | x :: xs' => y <~ f x ;; ys <~ for_list f xs' ;; ret (y :: ys)
  end.

(** [d[k]]: [KeyError] when [k] is not a key of [d]. *)
Definition getitem {V} (d : gmap string V) (k : string) : M V :=
  match d !! k with
  | Some v => ret v
  | None => raise (KeyError k)
  end.

(** [k in d] *)
Definition has_key {V} (d : gmap string V) (k : string) : bool :=
  bool_decide (is_Some (d !! k)).

(** The truth value of an optional string: [None] and [""] are false. *)
Definition truthy (o : option string) : bool :=
  match o with
  | None => false
  | Some s => negb (String.eqb s "")
  end.

(** ** Collaborators *)

(** Modelled from the spec: [get_input_files] of
    [openrelik_worker_common.task_utils] (not part of this repository).
    [pipe_result], when there is one, stands for the files decoded from the
    previous task's result; the task's docstring says [input_files] is
    unused then. *)
Definition get_input_files (pipe_result : option (list InputFile))
    (input_files : list InputFile) : list InputFile :=
  match pipe_result with
  | Some files => files
  | None => input_files
  end.

(** Modelled from the spec: [create_output_file] of
    [openrelik_worker_common.file_utils] (not part of this repository). It
    makes a descriptor for a new file in [output_path], with the display
    name, extension and data type it is given; each call names a distinct
    file. *)
Definition create_output_file (output_path : string)
    (display_name : option string) (extension data_type : string)
    : M OutputFile :=
  fun w =>
    (inr {| path := output_path +:+ "/" +:+ pretty (next_uuid w) +:+ extension;
            display_name := display_name;
            extension := extension;
            data_type := data_type |},
     {| next_uuid := S (next_uuid w);
        opened := opened w;
        spawned := spawned w |}).

(** The arguments of a command line must all be strings. *)
Fixpoint str_args (args : list (option string)) : option (list string) :=
  match args with
  | [] => Some []
  | None :: _ => None
  | Some a :: rest =>
      match str_args rest with
      | Some l => Some (a :: l)
      | None => None
      end
  end.

(** The error of line 103. *)
Definition no_artifacts : exception :=
  RuntimeError "No valid file system artifacts processed.".

Section Task.

Variable env : Env.

(** [open(p, "w")] *)
Definition open_w (p : string) : M string :=
  fun w =>
    if can_open env w p
    then (inr p, {| next_uuid := next_uuid w;
                    opened := opened w ++ [p];
                    spawned := spawned w |})
    else (inl OSError, w).

(** [subprocess.Popen(args, stdout=fh)]: the process is started and not
    waited for. Two failures are modelled: [TypeError] for an argument that
    is [None], and [OSError] when the operating system does not start the
    process; the [ValueError] Python raises for a malformed argument is
    not. *)
Definition Popen (args : list (option string)) (fh : string) : M unit :=
  fun w =>
    match str_args args with
    | None => (inl TypeError, w)
    | Some argv =>
        if can_spawn env w argv
        then (inr tt, {| next_uuid := next_uuid w;
                         opened := opened w;
                         spawned := spawned w ++ [(argv, fh)] |})
        else (inl OSError, w)
    end.

(** ** The task *)

(** The registry of lines 75-81. *)
Definition commands : gmap string (list string) :=
  list_to_map
    [("mft", ["fls"; "-r"]);
     ("journal", ["icat"]);
     ("boot_log", ["icat"]);
     ("logfile", ["icat"]);
     ("io3", ["icat"])].

(** Line 84: [input_file.get("display_name", "").lower()] *)
Definition file_name_of (input_file : InputFile) : string :=
  Str.lower (default "" (input_file !! "display_name")).

(** Line 85: [next((t for t in artifact_types if t in file_name), None)] *)
Definition matched_type (artifact_types : list string) (file_name : string)
    : option string :=
  find (fun t => Str.contains t file_name) artifact_types.

(** Lines 84-100: the body of the loop, for one input file. *)
Definition loop_body (output_path : string) (artifact_types : list string)
    (input_file : InputFile) (output_files : list OutputFile)
    : M (list OutputFile) :=
  let file_name := file_name_of input_file in
  let matched := matched_type artifact_types file_name in
  match matched with
  | Some t =>
      if truthy matched && has_key commands t then
        output_file <~ create_output_file output_path
                         (input_file !! "display_name")
                         ".txt" "filesystem_artifact" ;;
        template <~ getitem commands t ;;
        let command := (Some <$> template) ++ [input_file !! "path"] in
        fh <~ open_w (path output_file) ;;
        _ <~ Popen command fh ;;
        ret (output_files ++ [output_file])
      else ret output_files
  | None => ret output_files
  end.

(** Lines 83-100: the loop over the input files. *)
Fixpoint loop (output_path : string) (artifact_types : list string)
    (input_files : list InputFile) (output_files : list OutputFile)
    : M (list OutputFile) :=
  match input_files with
  | [] => ret output_files
  | input_file :: rest =>
      output_files' <~ loop_body output_path artifact_types
                         input_file output_files ;;
      loop output_path artifact_types rest output_files'
  end.

(** Line 107, one element of the comprehension over
    [zip(artifact_types, output_files)]:
    [" ".join(commands[t] + [f.get('path')])] *)
Definition summary_item (tf : string * OutputFile) : M string :=
  let '(t, f) := tf in
  template <~ getitem commands t ;;
  ret (Str.join " " (template ++ [path f])).

(** Line 73: [task_config.get("artifact_types", [])] *)
Definition get_artifact_types (task_config : option TaskConfig)
    : M (list string) :=
  match task_config with
  | None => raise AttributeError
  | Some cfg => ret (default [] (cfg !! "artifact_types"))
  end.

(** Lines 71-108: the task. *)
Definition command (pipe_result : option (list InputFile))
    (input_files : option (list InputFile)) (output_path : string)
    (workflow_id : option string) (task_config : option TaskConfig)
    : M TaskResult :=
  let input_files := get_input_files pipe_result (default [] input_files) in
  artifact_types <~ get_artifact_types task_config ;;
  output_files <~ loop output_path artifact_types input_files [] ;;
  match output_files with
  | [] => raise no_artifacts
  | _ :: _ =>
      summary <~ for_list summary_item (zip artifact_types output_files) ;;
      ret (create_task_result output_files workflow_id
             (Str.join "; " summary) ∅)
  end.

End Task.

(** An environment in which every file can be opened and every process
    started, and the world before the task has done anything. *)
Definition env_ok : Env := mkEnv (fun _ _ => true) (fun _ _ => true).

Definition world0 : World := mkWorld 0 [] [].

(** ** Helper notions used to state the properties *)

(** The identifiers with a registered command template. *)
Definition supported : list string :=
  ["mft"; "journal"; "boot_log"; "logfile"; "io3"].

(** The guard of line 87, as a function of the file: the type the file is
    dispatched to, with its template, if any. *)
Definition dispatch (artifact_types : list string) (input_file : InputFile)
    : option (string * list string) :=
  match matched_type artifact_types (file_name_of input_file) with
  | Some t =>
      if truthy (Some t) then
        match commands !! t with
        | Some template => Some (t, template)
        | None => None
        end
      else None
  | None => None
  end.

Definition is_dispatched (artifact_types : list string)
    (input_file : InputFile) : bool :=
  bool_decide (is_Some (dispatch artifact_types input_file)).

(** The input files that pass the guard, in input order. *)
Definition selected (artifact_types : list string)
    (input_files : list InputFile) : list InputFile :=
  List.filter (is_dispatched artifact_types) input_files.

(** The descriptor made for [input_file] when the world's counter is [n]. *)
Definition output_for (output_path : string) (n : nat)
    (input_file : InputFile) : OutputFile :=
  {| path := output_path +:+ "/" +:+ pretty n +:+ ".txt";
     display_name := input_file !! "display_name";
     extension := ".txt";
     data_type := "filesystem_artifact" |}.

(** The descriptors made for a list of dispatched files, the first one at
    counter [n]. *)
Fixpoint outputs_for (output_path : string) (n : nat)
    (input_files : list InputFile) : list OutputFile :=
  match input_files with
  | [] => []
  | f :: rest => output_for output_path n f :: outputs_for output_path (S n) rest
  end.


(** The process started for a dispatched file: the template of its type
    followed by the file's path. *)
Definition command_of (artifact_types : list string) (input_file : InputFile)
    (argv : list string) : Prop :=
  exists t template p,
    dispatch artifact_types input_file = Some (t, template) /\
    input_file !! "path" = Some p /\
    argv = template ++ [p].

(** The template line 107 looks up for a requested type. *)
Definition template_of (t : string) : list string :=
  default [] (commands !! t).

(** [t] is the first element of [R], in [R]'s order, that occurs in [s]. *)
Definition first_match (R : list string) (s t : string) : Prop :=
  exists R1 R2,
    R = R1 ++ t :: R2 /\
    Str.is_substring t s /\
    Forall (fun u => ~ Str.is_substring u s) R1.

(** ** Example inputs *)

Definition input_file (display_name path : string) : InputFile :=
  {[ "display_name" := display_name; "path" := path ]}.

Definition config (artifact_types : list string) : TaskConfig :=
  {[ "artifact_types" := artifact_types ]}.

(** ** Task registration *)

(** Line 23. *)
Definition TASK_NAME : string := "openrelik-worker-tsk.tasks.filesystem".

(** One entry of an ["options"] list, one form field of ["task_config"] and
    the metadata dictionary of lines 26-47. *)
Record ConfigOption := mkConfigOption {
  option_label : string;
  option_value : string
}.

Record ConfigField := mkConfigField {
  field_name : string;
  field_label : string;
  field_description : string;
  field_type : string;
  field_options : list ConfigOption;
  field_required : bool
}.

Record TaskMetadata := mkTaskMetadata {
  metadata_display_name : string;
  metadata_description : string;
  metadata_task_config : list ConfigField
}.

Definition TASK_METADATA : TaskMetadata :=
  {| metadata_display_name := "openrelik-worker-TSK";
     metadata_description :=
       "Using TSK to parse and analyse Filesystem Files [MFT, J, BOOT, etc.]";
     metadata_task_config :=
       [ {| field_name := "artifact_types";
            field_label := "Artifact Types";
            field_description := "Select the file system artifacts to process.";
            field_type := "checkbox";
            field_options :=
              [ mkConfigOption "MFT" "mft";
                mkConfigOption "Journal" "journal";
                mkConfigOption "Boot Log" "boot_log";
                mkConfigOption "Logfile" "logfile";
                mkConfigOption "Io3" "io3" ];
            field_required := true |} ] |}.

(** The values a form field of the metadata lets the user tick. *)
Definition option_values (metadata : TaskMetadata) (name : string)
    : list string :=
  flat_map (fun fld =>
              if String.eqb (field_name fld) name
              then map option_value (field_options fld)
              else [])
           (metadata_task_config metadata).

(** ** Letter case *)

(** An ASCII capital letter, and a string that holds one. *)
Definition is_upper (c : ascii) : bool :=
  let n := nat_of_ascii c in (65 <=? n) && (n <=? 90).

Fixpoint has_upper (s : string) : bool :=
  match s with
  | EmptyString => false
  | String c s' => is_upper c || has_upper s'
  end.

(** A string of ASCII characters only: on such a string [str.lower]
    folds the letters [A]-[Z] one by one and does nothing else. *)
Definition is_ascii_char (c : ascii) : bool := nat_of_ascii c <? 128.

Fixpoint is_ascii (s : string) : bool :=
  match s with
  | EmptyString => true
  | String c s' => is_ascii_char c && is_ascii s'
  end.

(** * Properties *)

Module StrFacts.
Import Str.

Lemma app_cons a (t p : string) : String a t +:+ p = String a (t +:+ p).
Proof. reflexivity. Qed.


Lemma startswith_spec t s :
  startswith t s = true <-> exists post, s = t +:+ post.
Proof.
  revert s. induction t as [|a t IH]; intros s; simpl.
  - split; [intros _; exists s; reflexivity | reflexivity].
  - destruct s as [|b s].
    + split; [discriminate | intros [post H]; discriminate].
    + destruct (ascii_dec a b) as [->|Hne].
      * rewrite IH. split; intros [post H]; exists post.
        -- rewrite H. reflexivity.
        -- rewrite app_cons in H. congruence.
      * split; [discriminate |].
        intros [post H]. rewrite app_cons in H. congruence.
Qed.

Lemma contains_spec t s : contains t s = true <-> is_substring t s.
Proof.
  unfold is_substring. induction s as [|b s IH].
  - simpl. rewrite orb_false_r, startswith_spec. split.
    + intros [post H]. exists "", post. exact H.
    + intros [pre [post H]]. destruct pre as [|c pre].
      * exists post. exact H.
      * rewrite app_cons in H. discriminate.
  - cbn [contains]. rewrite orb_true_iff, startswith_spec, IH. split.
    + intros [[post H] | [pre [post H]]].
      * exists "", post. exact H.
      * exists (String b pre), post. rewrite H. reflexivity.
    + intros [pre [post H]]. destruct pre as [|c pre].
      * left. exists post. exact H.
      * right. exists pre, post.
        rewrite app_cons in H. injection H as _ H. exact H.
Qed.

Lemma contains_false t s : contains t s = false <-> ~ is_substring t s.
Proof.
  rewrite <- contains_spec. destruct (contains t s); split; intros H;
    try reflexivity; try discriminate; try (intros H'; discriminate).
  exfalso. apply H. reflexivity.
Qed.

Lemma contains_empty_r t : contains t "" = true -> t = "".
Proof. destruct t; [reflexivity | simpl; discriminate]. Qed.

Lemma contains_empty_l s : contains "" s = true.
Proof. destruct s; reflexivity. Qed.

End StrFacts.

(** ** Classification *)

Section Classify.
Import Str StrFacts.

Lemma matched_type_Some R s t :
  matched_type R s = Some t <->
  exists R1 R2, R = R1 ++ t :: R2 /\ is_substring t s /\
                Forall (fun u => ~ is_substring u s) R1.
Proof.
  unfold matched_type. induction R as [|r R IH]; simpl.
  - split; [discriminate |].
    intros (R1 & R2 & H & _). destruct R1; discriminate.
  - destruct (contains r s) eqn:E.
    + split.
      * intros [= ->]. exists [], R. repeat split; [|constructor].
        apply contains_spec, E.
      * intros (R1 & R2 & H & Ht & Hno). destruct R1 as [|r1 R1].
        -- injection H as -> _. reflexivity.
        -- injection H as -> _. inversion Hno as [|? ? Hr1 _]; subst.
           apply contains_spec in E. contradiction.
    + rewrite IH. split.
      * intros (R1 & R2 & -> & Ht & Hno). exists (r :: R1), R2.
        repeat split; [exact Ht |]. constructor; [|exact Hno].
        apply contains_false, E.
      * intros (R1 & R2 & H & Ht & Hno). destruct R1 as [|r1 R1].
        -- injection H as -> _. apply contains_spec in Ht. congruence.
        -- injection H as -> ->. inversion Hno; subst.
           exists R1, R2. repeat split; assumption.
Qed.

Lemma matched_type_None R s :
  matched_type R s = None <-> Forall (fun u => ~ is_substring u s) R.
Proof.
  unfold matched_type. induction R as [|r R IH]; simpl.
  - split; [constructor | reflexivity].
  - destruct (contains r s) eqn:E.
    + split; [discriminate |]. intros H. inversion H as [|? ? Hr _]; subst.
      apply contains_spec in E. contradiction.
    + rewrite IH. split.
      * intros H. constructor; [apply contains_false, E | exact H].
      * intros H. inversion H; assumption.
Qed.

Lemma matched_type_empty_name R t : matched_type R "" = Some t -> t = "".
Proof.
  unfold matched_type. intros H. apply find_some in H as [_ H].
  apply contains_empty_r, H.
Qed.

End Classify.

(** ** The loop body *)

Section Body.

Variable env : Env.

Lemma str_args_template (template : list string) (x : option string) :
  str_args ((Some <$> template) ++ [x]) =
  match x with
  | Some p => Some (template ++ [p])
  | None => None
  end.
Proof.
  induction template as [|a l IH].
  - destruct x; reflexivity.
  - rewrite fmap_cons. change (str_args ((Some a :: (Some <$> l)) ++ [x]))
      with (match str_args ((Some <$> l) ++ [x]) with
            | Some r => Some (a :: r)
            | None => None
            end).
    rewrite IH. destruct x; reflexivity.
Qed.

Lemma has_key_true {V} (d : gmap string V) k :
  has_key d k = true <-> is_Some (d !! k).
Proof. unfold has_key. rewrite bool_decide_eq_true. reflexivity. Qed.

Lemma is_dispatched_false types f :
  is_dispatched types f = false <-> dispatch types f = None.
Proof.
  unfold is_dispatched. rewrite bool_decide_eq_false.
  destruct (dispatch types f) as [p|]; split; intros H;
    try discriminate; try reflexivity.
  - exfalso. apply H. exists p. reflexivity.
  - intros [x Hx]. discriminate.
Qed.

Lemma is_dispatched_true types f :
  is_dispatched types f = true <-> exists t template, dispatch types f = Some (t, template).
Proof.
  unfold is_dispatched. rewrite bool_decide_eq_true. split.
  - intros [[t template] H]. exists t, template. exact H.
  - intros (t & template & H). exists (t, template). exact H.
Qed.

(** A file that does not pass the guard leaves the list and the world as
    they are. *)
Lemma loop_body_skip d types f outs w :
  dispatch types f = None ->
  loop_body env d types f outs w = (inr outs, w).
Proof.
  unfold dispatch, loop_body.
  destruct (matched_type types (file_name_of f)) as [t|]; [|reflexivity].
  destruct (truthy (Some t)); [|reflexivity]. simpl.
  destruct (commands !! t) as [template|] eqn:E; [discriminate |].
  intros _. replace (has_key commands t) with false; [reflexivity |].
  symmetry. apply not_true_is_false. rewrite has_key_true, E.
  intros [x Hx]. discriminate.
Qed.

(** What the body does for a file that passes the guard. *)
Lemma loop_body_dispatch d types f outs w t template :
  dispatch types f = Some (t, template) ->
  let o := output_for d (next_uuid w) f in
  let w1 := mkWorld (S (next_uuid w)) (opened w) (spawned w) in
  let w2 := mkWorld (S (next_uuid w)) (opened w ++ [path o]) (spawned w) in
  loop_body env d types f outs w =
  if can_open env w1 (path o) then
    match f !! "path" with
    | None => (inl TypeError, w2)
    | Some p =>
        if can_spawn env w2 (template ++ [p]) then
          (inr (outs ++ [o]),
           mkWorld (S (next_uuid w)) (opened w ++ [path o])
                   (spawned w ++ [(template ++ [p], path o)]))
        else (inl OSError, w2)
    end
  else (inl OSError, w1).
Proof.
  unfold dispatch, loop_body.
  destruct (matched_type types (file_name_of f)) as [t'|]; [|discriminate].
  destruct (truthy (Some t')) eqn:Et; [|discriminate].
  destruct (commands !! t') as [template'|] eqn:E; [|discriminate].
  intros [= -> ->]. simpl.
  replace (has_key commands t) with true
    by (symmetry; apply has_key_true; rewrite E; eexists; reflexivity).
  simpl. unfold bind, create_output_file, getitem, open_w, Popen, ret. simpl.
  rewrite E. simpl.
  destruct (can_open env _ _); [|reflexivity].
  simpl. rewrite str_args_template.
  destruct (f !! "path") as [p|]; [|reflexivity].
  destruct (can_spawn env _ _); reflexivity.
Qed.

(** When the body returns for a dispatched file, it has appended exactly
    one descriptor, opened its path and spawned one process. *)
Lemma loop_body_dispatch_inr d types f outs w t template outs' w' :
  dispatch types f = Some (t, template) ->
  loop_body env d types f outs w = (inr outs', w') ->
  exists p,
    f !! "path" = Some p /\
    outs' = outs ++ [output_for d (next_uuid w) f] /\
    next_uuid w' = S (next_uuid w) /\
    opened w' = opened w ++ [path (output_for d (next_uuid w) f)] /\
    spawned w' = spawned w ++
      [(template ++ [p], path (output_for d (next_uuid w) f))].
Proof.
  intros Hd. rewrite (loop_body_dispatch d types f outs w t template Hd).
  cbv zeta.
  destruct (can_open env _ _); [|discriminate].
  destruct (f !! "path") as [p|]; [|discriminate].
  destruct (can_spawn env _ _); [|discriminate].
  intros [= <- <-]. exists p. simpl. repeat split; reflexivity.
Qed.

End Body.

(** ** The loop *)

Section Loop.

Variable env : Env.

Lemma loop_cons d types f fs outs w :
  loop env d types (f :: fs) outs w =
  match loop_body env d types f outs w with
  | (inl e, w') => (inl e, w')
  | (inr outs', w') => loop env d types fs outs' w'
  end.
Proof. reflexivity. Qed.

Lemma selected_cons_skip types f fs :
  dispatch types f = None -> selected types (f :: fs) = selected types fs.
Proof.
  intros H. apply is_dispatched_false in H. unfold selected. simpl.
  rewrite H. reflexivity.
Qed.

Lemma selected_cons_keep types f fs t template :
  dispatch types f = Some (t, template) ->
  selected types (f :: fs) = f :: selected types fs.
Proof.
  intros H. unfold selected. simpl.
  replace (is_dispatched types f) with true; [reflexivity |].
  symmetry. apply is_dispatched_true. eauto.
Qed.

(** A file that does not pass the guard is stepped over. *)
Lemma loop_skip d types f fs outs w :
  dispatch types f = None ->
  loop env d types (f :: fs) outs w = loop env d types fs outs w.
Proof.
  intros H. rewrite loop_cons, (loop_body_skip env d types f outs w H).
  reflexivity.
Qed.

(** What a loop that runs to its end has done. *)
Lemma loop_inr d types fs : forall outs w outs' w',
  loop env d types fs outs w = (inr outs', w') ->
  let sel := selected types fs in
  let new := outputs_for d (next_uuid w) sel in
  outs' = outs ++ new /\
  next_uuid w' = next_uuid w + length sel /\
  opened w' = opened w ++ map path new /\
  exists procs,
    spawned w' = spawned w ++ procs /\
    Forall2 (fun f pr => command_of types f (fst pr)) sel procs /\
    map snd procs = map path new.
Proof.
  induction fs as [|f fs IH]; intros outs w outs' w' H.
  - injection H as <- <-. simpl. rewrite !app_nil_r, Nat.add_0_r.
    repeat split. exists []. rewrite app_nil_r. repeat split. constructor.
  - rewrite loop_cons in H.
    destruct (dispatch types f) as [[t template]|] eqn:Hd.
    + destruct (loop_body env d types f outs w) as [[e|outs1] w1] eqn:Hb;
        [discriminate |].
      destruct (loop_body_dispatch_inr env d types f outs w t template
                  outs1 w1 Hd Hb) as (p & Hp & -> & Hn & Ho & Hs).
      apply IH in H. cbv zeta in H.
      destruct H as (-> & Hn' & Ho' & procs & Hs' & Hall & Hsnd).
      rewrite (selected_cons_keep _ _ _ _ _ Hd). cbv zeta. simpl.
      rewrite Hn in *. repeat split.
      * rewrite <- app_assoc. reflexivity.
      * lia.
      * rewrite Ho', Ho, <- app_assoc. reflexivity.
      * exists ((template ++ [p], path (output_for d (next_uuid w) f)) :: procs).
        repeat split.
        -- rewrite Hs', Hs, <- app_assoc. reflexivity.
        -- constructor; [|exact Hall]. exists t, template, p. auto.
        -- simpl. rewrite Hsnd. reflexivity.
    + rewrite (loop_body_skip env d types f outs w Hd) in H.
      rewrite (selected_cons_skip _ _ _ Hd). apply IH, H.
Qed.

(** The loop raises what the body raises: never a [RuntimeError], never a
    [KeyError]. *)
Lemma loop_inl d types fs : forall outs w e w',
  loop env d types fs outs w = (inl e, w') -> e = TypeError \/ e = OSError.
Proof.
  induction fs as [|f fs IH]; intros outs w e w' H.
  - discriminate.
  - rewrite loop_cons in H.
    destruct (dispatch types f) as [[t template]|] eqn:Hd.
    + rewrite (loop_body_dispatch env d types f outs w t template Hd) in H.
      cbv zeta in H.
      destruct (can_open env _ _); [|injection H as <- _; auto].
      destruct (f !! "path") as [p|]; [|injection H as <- _; auto].
      destruct (can_spawn env _ _); [|injection H as <- _; auto].
      eapply IH, H.
    + rewrite (loop_body_skip env d types f outs w Hd) in H. eapply IH, H.
Qed.

(** With no file passing the guard the loop does nothing. *)
Lemma loop_none_selected d types fs : forall outs w,
  selected types fs = [] -> loop env d types fs outs w = (inr outs, w).
Proof.
  induction fs as [|f fs IH]; intros outs w H; [reflexivity |].
  destruct (dispatch types f) as [[t template]|] eqn:Hd.
  - rewrite (selected_cons_keep _ _ _ _ _ Hd) in H. discriminate.
  - rewrite (selected_cons_skip _ _ _ Hd) in H.
    rewrite (loop_skip _ _ _ _ _ _ Hd). apply IH, H.
Qed.

End Loop.

(** ** The task as a whole *)

Section Command.

Variable env : Env.

Lemma for_list_cons {A B} (f : A -> M B) x xs w :
  for_list f (x :: xs) w =
  match f x w with
  | (inl e, w') => (inl e, w')
  | (inr y, w') =>
      match for_list f xs w' with
      | (inl e, w'') => (inl e, w'')
      | (inr ys, w'') => (inr (y :: ys), w'')
      end
  end.
Proof.
  cbn [for_list]. unfold bind at 1. destruct (f x w) as [[e|y] w1]; [reflexivity |].
  unfold bind. destruct (for_list f xs w1) as [[e|ys] w2]; reflexivity.
Qed.

Lemma summary_item_eq t f w :
  summary_item (t, f) w =
  match commands !! t with
  | Some template => (inr (Str.join " " (template ++ [path f])), w)
  | None => (inl (KeyError t), w)
  end.
Proof.
  unfold summary_item, bind, getitem.
  destruct (commands !! t); reflexivity.
Qed.

(** Building the summary does not touch the world and can only raise a
    [KeyError]. *)
Lemma for_list_summary_item l : forall w x w',
  for_list summary_item l w = (x, w') ->
  w' = w /\ (forall e, x = inl e -> exists k, e = KeyError k /\ commands !! k = None).
Proof.
  induction l as [|[t f] l IH]; intros w x w' H.
  - injection H as <- <-. split; [reflexivity | discriminate].
  - rewrite for_list_cons, summary_item_eq in H.
    destruct (commands !! t) as [template|] eqn:E.
    + destruct (for_list summary_item l w) as [[e|ys] w1] eqn:El.
      * destruct (IH _ _ _ El) as [-> He]. injection H as <- <-.
        split; [reflexivity |]. intros e' [= <-]. apply He. reflexivity.
      * destruct (IH _ _ _ El) as [-> _]. injection H as <- <-.
        split; [reflexivity | discriminate].
    + injection H as <- <-. split; [reflexivity |].
      intros e [= <-]. exists t. auto.
Qed.

Lemma command_unfold pr ifs d wid cfg w :
  command env pr ifs d wid (Some cfg) w =
  let types := default [] (cfg !! "artifact_types") in
  match loop env d types (get_input_files pr (default [] ifs)) [] w with
  | (inl e, w') => (inl e, w')
  | (inr [], w') => (inl no_artifacts, w')
  | (inr (o :: outs), w') =>
      match for_list summary_item (zip types (o :: outs)) w' with
      | (inl e, w'') => (inl e, w'')
      | (inr summary, w'') =>
          (inr (create_task_result (o :: outs) wid (Str.join "; " summary) ∅),
           w'')
      end
  end.
Proof.
  unfold command, get_artifact_types, bind at 1, ret at 1. cbv zeta.
  unfold bind at 1.
  destruct (loop env d _ _ [] w) as [[e|[|o outs]] w1]; try reflexivity.
Qed.

(** A returned result carries the list the loop built, the workflow
    identifier and empty metadata; the world is the one the loop left. *)
Lemma command_inr pr ifs d wid cfg w r w' :
  command env pr ifs d wid (Some cfg) w = (inr r, w') ->
  loop env d (default [] (cfg !! "artifact_types"))
       (get_input_files pr (default [] ifs)) [] w = (inr (output_files r), w') /\
  output_files r <> [] /\
  workflow_id r = wid /\
  meta r = ∅.
Proof.
  rewrite command_unfold. cbv zeta.
  destruct (loop env d _ _ [] w) as [[e|[|o outs]] w1]; try discriminate.
  destruct (for_list summary_item _ w1) as [[e|summary] w2] eqn:Es;
    [discriminate |].
  apply for_list_summary_item in Es as [-> _].
  intros [= <- <-]. simpl. repeat split. discriminate.
Qed.

(** The no-artifacts error is raised exactly when the loop ran to its end
    and produced nothing. *)
Lemma command_no_artifacts_iff pr ifs d wid cfg w w' :
  command env pr ifs d wid (Some cfg) w = (inl no_artifacts, w') <->
  loop env d (default [] (cfg !! "artifact_types"))
       (get_input_files pr (default [] ifs)) [] w = (inr [], w').
Proof.
  rewrite command_unfold. cbv zeta.
  destruct (loop env d _ _ [] w) as [[e|[|o outs]] w1] eqn:El.
  - split; [|discriminate]. intros [= -> ->].
    apply loop_inl in El as [El|El]; discriminate.
  - split; intros [= ->]; reflexivity.
  - destruct (for_list summary_item _ w1) as [[e|summary] w2] eqn:Es.
    + split; [|discriminate]. intros [= -> ->].
      apply for_list_summary_item in Es as [_ He].
      destruct (He _ eq_refl) as (k & Hk & _). discriminate.
    + split; discriminate.
Qed.

(** With no input file, or none that passes the guard, the task raises the
    no-artifacts error and leaves the world alone. *)
Lemma command_nothing_selected pr ifs d wid cfg w :
  selected (default [] (cfg !! "artifact_types"))
           (get_input_files pr (default [] ifs)) = [] ->
  command env pr ifs d wid (Some cfg) w = (inl no_artifacts, w).
Proof.
  intros H. apply command_no_artifacts_iff, loop_none_selected, H.
Qed.

End Command.

(** ** Facts about the descriptors of a run *)

Lemma selected_sublist types fs : sublist (selected types fs) fs.
Proof.
  unfold selected. induction fs as [|f fs IH]; simpl.
  - constructor.
  - destruct (is_dispatched types f); constructor; exact IH.
Qed.

Lemma outputs_for_fields d fs : forall n,
  Forall2 (fun o f =>
             extension o = ".txt" /\
             data_type o = "filesystem_artifact" /\
             display_name o = f !! "display_name")
          (outputs_for d n fs) fs.
Proof.
  induction fs as [|f fs IH]; intros n; simpl; constructor.
  - simpl. auto.
  - apply IH.
Qed.

Lemma outputs_for_length d fs : forall n, length (outputs_for d n fs) = length fs.
Proof. induction fs as [|f fs IH]; intros n; simpl; [|rewrite IH]; reflexivity. Qed.




(** ** The command summary *)

(** The summary of a returned result is built from the requested types,
    taken by position, and the paths of the output files. *)
Lemma summary_items_inr l : forall w summary w',
  for_list summary_item l w = (inr summary, w') ->
  summary = map (fun tf => Str.join " " (template_of (fst tf) ++ [path (snd tf)])) l.
Proof.
  induction l as [|[t f] l IH]; intros w summary w' H.
  - injection H as <- _. reflexivity.
  - rewrite for_list_cons, summary_item_eq in H. unfold template_of. simpl.
    destruct (commands !! t) as [template|]; [|discriminate].
    destruct (for_list summary_item l w) as [[e|ys] w1] eqn:El; [discriminate |].
    injection H as <- _. rewrite (IH _ _ _ El). reflexivity.
Qed.

Lemma command_summary_shape (env : Env) pr ifs d wid (cfg : TaskConfig) w w' r :
  command env pr ifs d wid (Some cfg) w = (inr r, w') ->
  command_summary r =
  Str.join "; "
    (map (fun tf => Str.join " " (template_of (fst tf) ++ [path (snd tf)]))
         (zip (default [] (cfg !! "artifact_types")) (output_files r))).
Proof.
  rewrite command_unfold. cbv zeta.
  destruct (loop env d _ _ [] w) as [[e|[|o outs]] w1]; try discriminate.
  destruct (for_list summary_item _ w1) as [[e|summary] w2] eqn:Es;
    [discriminate |].
  intros [= <- _]. simpl command_summary. simpl output_files.
  rewrite (summary_items_inr _ _ _ _ Es). reflexivity.
Qed.

(** When every requested type is registered, the summary is built without
    an error: a run whose loop produced an output file returns a result. *)
Lemma summary_items_registered l : forall w,
  Forall (fun tf => is_Some (commands !! (fst tf))) l ->
  exists summary, for_list summary_item l w = (inr summary, w).
Proof.
  induction l as [|[t f] l IH]; intros w H.
  - exists []. reflexivity.
  - inversion H as [|? ? [template Ht] Hl]; subst. simpl in Ht.
    destruct (IH w Hl) as [ys Hys].
    exists (Str.join " " (template ++ [path f]) :: ys).
    rewrite for_list_cons, summary_item_eq, Ht, Hys. reflexivity.
Qed.

Lemma command_returns_when_registered (env : Env) pr ifs d wid
    (cfg : TaskConfig) w w' o outs :
  Forall (fun t => is_Some (commands !! t)) (default [] (cfg !! "artifact_types")) ->
  loop env d (default [] (cfg !! "artifact_types"))
       (get_input_files pr (default [] ifs)) [] w = (inr (o :: outs), w') ->
  exists r, command env pr ifs d wid (Some cfg) w = (inr r, w').
Proof.
  intros Hreg Hl. rewrite command_unfold. cbv zeta. rewrite Hl.
  destruct (summary_items_registered
              (zip (default [] (cfg !! "artifact_types")) (o :: outs)) w')
    as [summary Hs].
  - apply Forall_forall. intros [t f] Hin. simpl.
    apply elem_of_zip_l in Hin.
    rewrite Forall_forall in Hreg. apply Hreg, Hin.
  - rewrite Hs. eexists. reflexivity.
Qed.

(** ** The claims *)

(** C1, as the code has it. For every list [R] of requested types and
    every input file whose display name is [N] (the empty string when the
    entry is absent), the classification of lines 84-85 returns the first
    element of [R], in [R]'s order, that is a substring of the lowercased
    [N], and returns none exactly when no element of [R] is such a
    substring. A requested type that occurs in the lowercased name wins
    over every later one, wherever they occur in the name. For an empty
    display name the classification returns none when [R] holds no empty
    identifier and the empty identifier when it holds one; the guard of
    line 87 takes the empty identifier for no match, so the file is
    dispatched to no type. *)
Theorem classify_first_match (R : list string) (f : InputFile) (N : string) :
  default "" (f !! "display_name") = N ->
  (forall t, matched_type R (file_name_of f) = Some t <->
             first_match R (Str.lower N) t) /\
  (matched_type R (file_name_of f) = None <->
   Forall (fun u => ~ Str.is_substring u (Str.lower N)) R) /\
  (forall R1 t R2,
     R = R1 ++ t :: R2 ->
     Forall (fun u => ~ Str.is_substring u (Str.lower N)) R1 ->
     Str.is_substring t (Str.lower N) ->
     matched_type R (file_name_of f) = Some t) /\
  (N = "" ->
   (forall t, matched_type R (file_name_of f) = Some t -> t = "") /\
   (~ In "" R -> matched_type R (file_name_of f) = None) /\
   (In "" R -> matched_type R (file_name_of f) = Some "") /\
   dispatch R f = None).
Proof.
  intros HN.
  assert (Hf : file_name_of f = Str.lower N)
    by (unfold file_name_of; rewrite HN; reflexivity).
  rewrite Hf. split; [|split; [|split]].
  - intros t. apply matched_type_Some.
  - apply matched_type_None.
  - intros R1 t R2 HR Hno Ht. apply matched_type_Some.
    exists R1, R2. auto.
  - intros ->. simpl Str.lower.
    assert (Hempty : forall t, matched_type R "" = Some t -> t = "")
      by (intros t; apply matched_type_empty_name).
    split; [exact Hempty |]. split; [|split].
    + intros Hin. destruct (matched_type R "") as [t|] eqn:E; [|reflexivity].
      pose proof (Hempty _ eq_refl) as ->.
      unfold matched_type in E. apply find_some in E as [E _]. contradiction.
    + intros Hin. destruct (matched_type R "") as [t|] eqn:E.
      * rewrite (Hempty _ eq_refl). reflexivity.
      * apply matched_type_None in E. rewrite Forall_forall in E.
        exfalso. apply (E ""); [apply list_elem_of_In, Hin |].
        exists "", "". reflexivity.
    + unfold dispatch. rewrite Hf. simpl Str.lower.
      destruct (matched_type R "") as [t|] eqn:E; [|reflexivity].
      rewrite (Hempty _ eq_refl). reflexivity.
Qed.

Lemma classify_first_match_witness :
  matched_type ["journal"; "mft"]
               (file_name_of (input_file "MFT_JOURNAL.bin" "/in/x"))
    = Some "journal" /\
  matched_type ["journal"; "mft"] (file_name_of (input_file "" "/in/x")) = None /\
  dispatch [""; "mft"] (input_file "" "/in/x") = None.
Proof.
  destruct (classify_first_match ["journal"; "mft"]
              (input_file "MFT_JOURNAL.bin" "/in/x") "MFT_JOURNAL.bin" eq_refl)
    as (_ & _ & H3 & _).
  destruct (classify_first_match ["journal"; "mft"]
              (input_file "" "/in/x") "" eq_refl)
    as (_ & _ & _ & H4).
  destruct (classify_first_match [""; "mft"]
              (input_file "" "/in/x") "" eq_refl)
    as (_ & _ & _ & H5).
  split; [|split].
  - apply (H3 [] "journal" ["mft"]).
    + reflexivity.
    + constructor.
    + exists "mft_", ".bin". reflexivity.
  - apply (H4 eq_refl). simpl. intros [H | [H | []]]; discriminate.
  - apply (H5 eq_refl).
Defined.

(** C1, as stated, fails for a list of requested types that holds the
    empty identifier: the empty string is a substring of the empty display
    name, so the classification of an empty display name returns the
    empty identifier, not none. *)
Lemma empty_name_matches_empty_identifier :
  Str.is_substring "" (Str.lower "") /\
  matched_type [""; "mft"] (file_name_of (input_file "" "/in/x")) = Some "" /\
  matched_type [""; "mft"] (file_name_of (input_file "" "/in/x")) <> None.
Proof.
  split; [exists "", ""; reflexivity |].
  split; [vm_compute; reflexivity |].
  vm_compute. discriminate.
Qed.

(** C2 fails on the code. The file [mft.bin] is matched to the requested
    type [mft] and its output file is produced, so the no-artifacts error
    is not raised; but the task returns no result: the summary of line 107
    looks up the first requested identifier, [xyz], which is not
    registered, and the task ends with [KeyError]. *)
Theorem output_produced_but_no_result :
  loop env_ok "/out" ["xyz"; "mft"] [input_file "mft.bin" "/in/mft.bin"] []
       world0
    = (inr [mkOutputFile "/out/0.txt" (Some "mft.bin") ".txt"
                         "filesystem_artifact"],
       mkWorld 1 ["/out/0.txt"]
               [(["fls"; "-r"; "/in/mft.bin"], "/out/0.txt")]) /\
  command env_ok None (Some [input_file "mft.bin" "/in/mft.bin"]) "/out"
          (Some "wf") (Some (config ["xyz"; "mft"])) world0
    = (inl (KeyError "xyz"),
       mkWorld 1 ["/out/0.txt"]
               [(["fls"; "-r"; "/in/mft.bin"], "/out/0.txt")]).
Proof. split; vm_compute; reflexivity. Qed.

(** C3 fails on the code. For the input file [MFT_C.bin] at
    [/in/MFT_C.bin] and the requested types [mft], the process started is
    [fls -r /in/MFT_C.bin], but the summary is [fls -r /out/0.txt]: it
    names the output file's path and does not contain the command that was
    run. For [mft.bin] with the requested types [journal] and [mft], the
    process started is [fls -r /in/mft.bin] and the summary is
    [icat /out/0.txt]: it uses the first requested type, not the matched
    one. For two MFT files and the one requested type [mft], two processes
    are started and the summary lists one command. *)
Theorem summary_is_not_the_commands_run :
  (exists r w',
     command env_ok None (Some [input_file "MFT_C.bin" "/in/MFT_C.bin"])
             "/out" (Some "wf") (Some (config ["mft"])) world0 = (inr r, w') /\
     spawned w' = [(["fls"; "-r"; "/in/MFT_C.bin"], "/out/0.txt")] /\
     command_summary r = "fls -r /out/0.txt" /\
     Str.contains "fls -r /in/MFT_C.bin" (command_summary r) = false) /\
  (exists r w',
     command env_ok None (Some [input_file "mft.bin" "/in/mft.bin"])
             "/out" (Some "wf") (Some (config ["journal"; "mft"])) world0
       = (inr r, w') /\
     spawned w' = [(["fls"; "-r"; "/in/mft.bin"], "/out/0.txt")] /\
     command_summary r = "icat /out/0.txt") /\
  (exists r w',
     command env_ok None
             (Some [input_file "MFT_C" "/in/C"; input_file "MFT_D" "/in/D"])
             "/out" (Some "wf") (Some (config ["mft"])) world0 = (inr r, w') /\
     spawned w' = [(["fls"; "-r"; "/in/C"], "/out/0.txt");
                   (["fls"; "-r"; "/in/D"], "/out/1.txt")] /\
     command_summary r = "fls -r /out/0.txt").
Proof.
  split; [|split]; eexists _, _; vm_compute; repeat split; reflexivity.
Qed.

(** C4. For every supported artifact type, the process started for a file
    matched to that type is the type's fixed template followed by the
    file's path: [fls -r <path>] for [mft] and [icat <path>] for
    [journal], [boot_log], [logfile] and [io3]; its standard output goes to
    the new output file. *)
Theorem invoked_command (env : Env) (d : string) (types : list string)
    (f : InputFile) (outs : list OutputFile) (w : World) (t p : string) :
  In t supported ->
  matched_type types (file_name_of f) = Some t ->
  f !! "path" = Some p ->
  (forall w' q, can_open env w' q = true) ->
  (forall w' argv, can_spawn env w' argv = true) ->
  exists o w',
    loop_body env d types f outs w = (inr (outs ++ [o]), w') /\
    spawned w' = spawned w ++
      [((if String.eqb t "mft" then ["fls"; "-r"; p] else ["icat"; p]), path o)].
Proof.
  intros Hin Hm Hp Hopen Hspawn.
  assert (Hd : dispatch types f =
               Some (t, if String.eqb t "mft" then ["fls"; "-r"] else ["icat"])).
  { unfold dispatch. rewrite Hm.
    simpl in Hin.
    destruct Hin as [<- | [<- | [<- | [<- | [<- | []]]]]]; reflexivity. }
  eexists _, _.
  rewrite (loop_body_dispatch env d types f outs w _ _ Hd). cbv zeta.
  rewrite Hopen, Hp, Hspawn. split; [reflexivity |]. simpl.
  destruct (String.eqb t "mft"); reflexivity.
Qed.

Lemma invoked_command_witness :
  exists o w',
    loop_body env_ok "/out" ["mft"; "logfile"]
              (input_file "$LogFile.bin" "/in/$LogFile.bin") [] world0
      = (inr ([] ++ [o]), w') /\
    spawned w' = spawned world0 ++ [(["icat"; "/in/$LogFile.bin"], path o)].
Proof.
  apply (invoked_command env_ok "/out" ["mft"; "logfile"]
           (input_file "$LogFile.bin" "/in/$LogFile.bin") [] world0
           "logfile" "/in/$LogFile.bin").
  - simpl. auto.
  - vm_compute. reflexivity.
  - vm_compute. reflexivity.
  - reflexivity.
  - reflexivity.
Defined.

(** C5, as the code has it. A file matched to an identifier that is not
    registered is stepped over by the guard of line 87: the template is
    not looked up, no output file is created, no process is started and
    nothing is raised for that file. *)
Theorem unregistered_type_skipped (env : Env) (d : string)
    (types : list string) (f : InputFile) (outs : list OutputFile)
    (w : World) (t : string) :
  matched_type types (file_name_of f) = Some t ->
  commands !! t = None ->
  loop_body env d types f outs w = (inr outs, w).
Proof.
  intros Hm Hc. apply loop_body_skip. unfold dispatch. rewrite Hm, Hc.
  destruct (truthy (Some t)); reflexivity.
Qed.

Lemma unregistered_type_skipped_witness :
  loop_body env_ok "/out" ["xyz"] (input_file "xyz.bin" "/in/xyz.bin") []
            world0 = (inr [], world0).
Proof.
  apply (unregistered_type_skipped env_ok "/out" ["xyz"]
           (input_file "xyz.bin" "/in/xyz.bin") [] world0 "xyz").
  - vm_compute. reflexivity.
  - vm_compute. reflexivity.
Defined.

(** C5, as stated, fails: the file [xyz.bin] is matched to the requested
    identifier [xyz], which has no template, and the loop body raises
    nothing; a run over that file and an MFT file returns a result. *)
Lemma unregistered_type_not_raised :
  matched_type ["mft"; "xyz"]
               (file_name_of (input_file "xyz.bin" "/in/xyz.bin")) = Some "xyz" /\
  commands !! "xyz" = None /\
  ~ (exists e w',
       loop_body env_ok "/out" ["mft"; "xyz"]
                 (input_file "xyz.bin" "/in/xyz.bin") [] world0 = (inl e, w')) /\
  exists r w',
    command env_ok None
            (Some [input_file "xyz.bin" "/in/xyz.bin";
                   input_file "mft.bin" "/in/mft.bin"])
            "/out" (Some "wf") (Some (config ["mft"; "xyz"])) world0
      = (inr r, w').
Proof.
  split; [vm_compute; reflexivity |].
  split; [vm_compute; reflexivity |].
  split.
  - intros (e & w' & H). vm_compute in H. discriminate.
  - eexists _, _. vm_compute. reflexivity.
Qed.

(** C6. Every output file of a returned result has extension [".txt"],
    data type ["filesystem_artifact"] and the display name of the input
    file it was made for; the result carries the list of output files the
    loop built, the workflow identifier it was given and empty metadata. *)
Theorem result_fields (env : Env) (pipe_result : option (list InputFile))
    (input_files : option (list InputFile)) (d : string)
    (wid : option string) (cfg : TaskConfig) (w w' : World) (r : TaskResult) :
  command env pipe_result input_files d wid (Some cfg) w = (inr r, w') ->
  let types := default [] (cfg !! "artifact_types") in
  let inputs := get_input_files pipe_result (default [] input_files) in
  loop env d types inputs [] w = (inr (output_files r), w') /\
  Forall2 (fun o f =>
             extension o = ".txt" /\
             data_type o = "filesystem_artifact" /\
             display_name o = f !! "display_name")
          (output_files r) (selected types inputs) /\
  workflow_id r = wid /\
  meta r = ∅.
Proof.
  intros H types inputs.
  apply command_inr in H as (Hl & _ & Hw & Hm).
  repeat split; try assumption.
  apply loop_inr in Hl as (-> & _). apply outputs_for_fields.
Qed.

Lemma result_fields_witness :
  exists r,
    output_files r =
      [mkOutputFile "/out/0.txt" (Some "MFT_C.bin") ".txt" "filesystem_artifact"] /\
    workflow_id r = Some "wf" /\
    meta r = ∅.
Proof.
  pose (r := mkTaskResult
               [mkOutputFile "/out/0.txt" (Some "MFT_C.bin") ".txt"
                             "filesystem_artifact"]
               (Some "wf") "fls -r /out/0.txt" ∅).
  pose (w' := mkWorld 1 ["/out/0.txt"]
                [(["fls"; "-r"; "/in/MFT_C.bin"], "/out/0.txt")]).
  exists r.
  destruct (result_fields env_ok None
              (Some [input_file "MFT_C.bin" "/in/MFT_C.bin"]) "/out"
              (Some "wf") (config ["mft"]) world0 w' r)
    as (_ & _ & Hw & Hm).
  - vm_compute. reflexivity.
  - split; [reflexivity |]. split; [exact Hw | exact Hm].
Defined.

(** C7. An input file whose lowercased display name contains none of the
    requested type identifiers makes the loop body return the output list
    it was given and leave the world as it was: no output file is created,
    no file is opened, no process is started and nothing is raised; the
    loop goes on with the remaining files. *)
Theorem unmatched_file_skipped (env : Env) (d : string) (types : list string)
    (f : InputFile) (rest : list InputFile) (outs : list OutputFile)
    (w : World) :
  Forall (fun t => ~ Str.is_substring t (file_name_of f)) types ->
  loop_body env d types f outs w = (inr outs, w) /\
  loop env d types (f :: rest) outs w = loop env d types rest outs w.
Proof.
  intros H. apply matched_type_None in H.
  assert (Hd : dispatch types f = None) by (unfold dispatch; rewrite H; reflexivity).
  split.
  - apply loop_body_skip, Hd.
  - apply loop_skip, Hd.
Qed.

Lemma unmatched_file_skipped_witness :
  loop_body env_ok "/out" ["mft"; "journal"]
            (input_file "random.txt" "/in/random.txt") [] world0
    = (inr [], world0) /\
  loop env_ok "/out" ["mft"; "journal"]
       [input_file "random.txt" "/in/random.txt"; input_file "MFT" "/in/MFT"]
       [] world0
    = loop env_ok "/out" ["mft"; "journal"] [input_file "MFT" "/in/MFT"]
           [] world0.
Proof.
  apply (unmatched_file_skipped env_ok "/out" ["mft"; "journal"]
           (input_file "random.txt" "/in/random.txt")
           [input_file "MFT" "/in/MFT"] [] world0).
  repeat constructor; apply StrFacts.contains_false; vm_compute; reflexivity.
Defined.




(** C9. When the task configuration has no ["artifact_types"] entry, or an
    empty one, then whatever the input files are, no file is matched and
    the task raises the no-artifacts error in the world it started in: no
    output file has been created and no process started. *)
Theorem no_requested_types (env : Env) (pipe_result : option (list InputFile))
    (input_files : option (list InputFile)) (d : string)
    (wid : option string) (cfg : TaskConfig) (w : World) :
  cfg !! "artifact_types" = None \/ cfg !! "artifact_types" = Some [] ->
  Forall (fun f => matched_type (default [] (cfg !! "artifact_types"))
                                (file_name_of f) = None)
         (get_input_files pipe_result (default [] input_files)) /\
  command env pipe_result input_files d wid (Some cfg) w = (inl no_artifacts, w).
Proof.
  intros H.
  assert (Ht : default [] (cfg !! "artifact_types") = [])
    by (destruct H as [-> | ->]; reflexivity).
  split.
  - rewrite Ht. apply Forall_forall. reflexivity.
  - apply command_nothing_selected. rewrite Ht.
    induction (get_input_files pipe_result (default [] input_files))
      as [|f fs IH]; [reflexivity |].
    rewrite (selected_cons_skip [] f fs); [exact IH | reflexivity].
Qed.

Lemma no_requested_types_witness :
  command env_ok None (Some [input_file "MFT" "/in/MFT"]) "/out" (Some "wf")
          (Some ∅) world0 = (inl no_artifacts, world0) /\
  command env_ok None (Some [input_file "MFT" "/in/MFT"]) "/out" (Some "wf")
          (Some (config [])) world0 = (inl no_artifacts, world0).
Proof.
  split.
  - apply (no_requested_types env_ok None (Some [input_file "MFT" "/in/MFT"])
             "/out" (Some "wf") ∅ world0).
    left. reflexivity.
  - apply (no_requested_types env_ok None (Some [input_file "MFT" "/in/MFT"])
             "/out" (Some "wf") (config []) world0).
    right. reflexivity.
Defined.

(** C10. In every run that returns a result, the output files are in the
    order of the input files they were made for, and every input file
    accounts for at most one of them: the output files correspond, one to
    one and in order, to a sublist of the input files, each of them having
    received the output of the one process started on its input file. *)
Theorem outputs_in_input_order (env : Env)
    (pipe_result : option (list InputFile))
    (input_files : option (list InputFile)) (d : string)
    (wid : option string) (cfg : TaskConfig) (w w' : World) (r : TaskResult) :
  command env pipe_result input_files d wid (Some cfg) w = (inr r, w') ->
  let types := default [] (cfg !! "artifact_types") in
  let inputs := get_input_files pipe_result (default [] input_files) in
  exists (fs : list InputFile) (procs : list (list string * string)),
    sublist fs inputs /\
    Forall2 (fun o f => display_name o = f !! "display_name")
            (output_files r) fs /\
    spawned w' = spawned w ++ procs /\
    Forall2 (fun f pr => command_of types f (fst pr)) fs procs /\
    map snd procs = map path (output_files r) /\
    length (output_files r) <= length inputs.
Proof.
  intros H types inputs.
  apply command_inr in H as (Hl & _).
  apply loop_inr in Hl as (Ho & _ & _ & procs & Hs & Hall & Hsnd).
  simpl in Ho. exists (selected types inputs), procs.
  rewrite Ho. repeat split; try assumption.
  - apply selected_sublist.
  - eapply Forall2_impl; [apply outputs_for_fields |].
    simpl. intros o f (_ & _ & Hn). exact Hn.
  - rewrite outputs_for_length. apply sublist_length, selected_sublist.
Qed.

Lemma outputs_in_input_order_witness :
  exists (fs : list InputFile) (procs : list (list string * string)),
    sublist fs [input_file "MFT" "/in/MFT";
                input_file "random.txt" "/in/random.txt";
                input_file "UsnJrnl_journal" "/in/J"] /\
    Forall2 (fun o f => display_name o = f !! "display_name")
      [mkOutputFile "/out/0.txt" (Some "MFT") ".txt" "filesystem_artifact";
       mkOutputFile "/out/1.txt" (Some "UsnJrnl_journal") ".txt"
                    "filesystem_artifact"]
      fs /\
    procs = [(["fls"; "-r"; "/in/MFT"], "/out/0.txt");
             (["icat"; "/in/J"], "/out/1.txt")].
Proof.
  pose (inputs := [input_file "MFT" "/in/MFT";
                   input_file "random.txt" "/in/random.txt";
                   input_file "UsnJrnl_journal" "/in/J"]).
  pose (outs :=
    [mkOutputFile "/out/0.txt" (Some "MFT") ".txt" "filesystem_artifact";
     mkOutputFile "/out/1.txt" (Some "UsnJrnl_journal") ".txt"
                  "filesystem_artifact"]).
  pose (r := mkTaskResult outs (Some "wf")
               "fls -r /out/0.txt; icat /out/1.txt" ∅).
  pose (w' := mkWorld 2 ["/out/0.txt"; "/out/1.txt"]
                [(["fls"; "-r"; "/in/MFT"], "/out/0.txt");
                 (["icat"; "/in/J"], "/out/1.txt")]).
  destruct (outputs_in_input_order env_ok None (Some inputs) "/out"
              (Some "wf") (config ["mft"; "journal"]) world0 w' r)
    as (fs & procs & Hsub & Hnames & Hsp & _).
  - vm_compute. reflexivity.
  - exists fs, procs. split; [exact Hsub |]. split; [exact Hnames |].
    simpl in Hsp. symmetry. exact Hsp.
Defined.

(** * Further properties of the task *)

(** ** How the loop composes *)

Section LoopAlgebra.

Variable env : Env.

(** The body does not look at the output list it extends. *)
Lemma loop_body_frame d types f outs w :
  loop_body env d types f outs w =
  match loop_body env d types f [] w with
  | (inl e, w') => (inl e, w')
  | (inr new, w') => (inr (outs ++ new), w')
  end.
Proof.
  destruct (dispatch types f) as [[t template]|] eqn:Hd.
  - rewrite !(loop_body_dispatch env d types f _ w t template Hd). cbv zeta.
    destruct (can_open env _ _); [|reflexivity].
    destruct (f !! "path") as [p|]; [|reflexivity].
    destruct (can_spawn env _ _); reflexivity.
  - rewrite !(loop_body_skip env d types f _ w Hd), app_nil_r. reflexivity.
Qed.

(** X1. Looping over [fs1 ++ fs2] is looping over [fs1] and then, if
    nothing was raised, over [fs2] from the list and the world the first
    loop left; an exception raised in the first part ends the whole loop
    there. *)
Theorem loop_app (d : string) (types : list string)
    (fs1 fs2 : list InputFile) (outs : list OutputFile) (w : World) :
  loop env d types (fs1 ++ fs2) outs w =
  match loop env d types fs1 outs w with
  | (inl e, w') => (inl e, w')
  | (inr outs1, w1) => loop env d types fs2 outs1 w1
  end.
Proof.
  revert outs w. induction fs1 as [|f fs1 IH]; intros outs w; [reflexivity |].
  rewrite <- app_comm_cons, !loop_cons.
  destruct (loop_body env d types f outs w) as [[e|outs1] w1]; [reflexivity |].
  apply IH.
Qed.

(** X2. The loop never drops or reorders what was already in the output
    list: started with the list [outs] it does what it does when started
    with the empty list, and returns [outs] followed by what that run
    returns. *)
Theorem loop_frame (d : string) (types : list string)
    (fs : list InputFile) (outs : list OutputFile) (w : World) :
  loop env d types fs outs w =
  match loop env d types fs [] w with
  | (inl e, w') => (inl e, w')
  | (inr new, w') => (inr (outs ++ new), w')
  end.
Proof.
  revert outs w. induction fs as [|f fs IH]; intros outs w.
  - simpl. unfold ret. rewrite app_nil_r. reflexivity.
  - rewrite !loop_cons, (loop_body_frame d types f outs w).
    destruct (loop_body env d types f [] w) as [[e|new] w1]; [reflexivity |].
    rewrite (IH (outs ++ new)), (IH ([] ++ new)).
    destruct (loop env d types fs [] w1) as [[e|new'] w2]; [reflexivity |].
    rewrite app_assoc. reflexivity.
Qed.

(** X3. Nothing isolates a failing extraction. When the files before [f]
    are processed without an exception and the body raises for [f], the
    task raises that exception in the world the body left, whatever files
    come after [f]: they are not looked at, the output files made so far
    are not returned, and neither the no-artifacts test nor the summary is
    reached. *)
Theorem failure_aborts_run (pr ifs : option (list InputFile)) (d : string)
    (wid : option string) (cfg : TaskConfig) (w w1 w2 : World)
    (pre rest : list InputFile) (f : InputFile) (outs1 : list OutputFile)
    (e : exception) :
  let types := default [] (cfg !! "artifact_types") in
  get_input_files pr (default [] ifs) = pre ++ f :: rest ->
  loop env d types pre [] w = (inr outs1, w1) ->
  loop_body env d types f outs1 w1 = (inl e, w2) ->
  command env pr ifs d wid (Some cfg) w = (inl e, w2).
Proof.
  intros types Hin Hpre Hf. rewrite command_unfold. cbv zeta. fold types.
  rewrite Hin, loop_app, Hpre, loop_cons, Hf. reflexivity.
Qed.

End LoopAlgebra.

Lemma failure_aborts_run_witness :
  command (mkEnv (fun _ _ => true) (fun _ argv => negb (length argv =? 2)))
          None
          (Some [input_file "MFT" "/in/MFT"; input_file "UsnJrnl_journal" "/in/J";
                 input_file "MFT2" "/in/MFT2"])
          "/out" (Some "wf") (Some (config ["mft"; "journal"])) world0
    = (inl OSError,
       mkWorld 2 ["/out/0.txt"; "/out/1.txt"]
               [(["fls"; "-r"; "/in/MFT"], "/out/0.txt")]).
Proof.
  apply (failure_aborts_run
           (mkEnv (fun _ _ => true) (fun _ argv => negb (length argv =? 2)))
           None
           (Some [input_file "MFT" "/in/MFT"; input_file "UsnJrnl_journal" "/in/J";
                  input_file "MFT2" "/in/MFT2"])
           "/out" (Some "wf") (config ["mft"; "journal"]) world0
           (mkWorld 1 ["/out/0.txt"] [(["fls"; "-r"; "/in/MFT"], "/out/0.txt")])
           (mkWorld 2 ["/out/0.txt"; "/out/1.txt"]
                    [(["fls"; "-r"; "/in/MFT"], "/out/0.txt")])
           [input_file "MFT" "/in/MFT"] [input_file "MFT2" "/in/MFT2"]
           (input_file "UsnJrnl_journal" "/in/J")
           [mkOutputFile "/out/0.txt" (Some "MFT") ".txt" "filesystem_artifact"]
           OSError).
  - reflexivity.
  - vm_compute. reflexivity.
  - vm_compute. reflexivity.
Defined.

(** ** What the task can raise *)

Section Exceptions.

Variable env : Env.

Lemma for_list_summary_item_key l : forall w k w',
  for_list summary_item l w = (inl (KeyError k), w') ->
  In k (map fst l) /\ commands !! k = None.
Proof.
  induction l as [|[t f] l IH]; intros w k w' H; [discriminate |].
  rewrite for_list_cons, summary_item_eq in H.
  destruct (commands !! t) as [template|] eqn:E.
  - destruct (for_list summary_item l w) as [[e|ys] w1] eqn:El; [|discriminate].
    injection H as -> _. destruct (IH _ _ _ El) as [Hin Hk].
    split; [right; exact Hin | exact Hk].
  - injection H as -> _. split; [left; reflexivity | exact E].
Qed.

Lemma In_fst_zip {A B} (l : list A) (k : list B) x :
  In x (map fst (zip l k)) -> In x l.
Proof.
  revert k. induction l as [|a l IH]; intros [|b k]; simpl; try tauto.
  intros [H | H]; [left; exact H | right; eapply IH, H].
Qed.

Lemma command_key_error pr ifs d wid (cfg : TaskConfig) w k w' :
  command env pr ifs d wid (Some cfg) w = (inl (KeyError k), w') ->
  In k (default [] (cfg !! "artifact_types")) /\ commands !! k = None.
Proof.
  rewrite command_unfold. cbv zeta.
  destruct (loop env d _ _ [] w) as [[e1|[|o outs]] w1] eqn:El.
  - intros [= -> _]. apply loop_inl in El as [El | El]; discriminate.
  - discriminate.
  - destruct (for_list summary_item _ w1) as [[e1|summary] w2] eqn:Es;
      [|discriminate].
    intros [= -> _]. apply for_list_summary_item_key in Es as [Hin Hk].
    split; [eapply In_fst_zip, Hin | exact Hk].
Qed.

Lemma summary_items_key_error (pre : list string) k (rest : list string) :
  forall (outs : list OutputFile) w,
    Forall (fun t => is_Some (commands !! t)) pre ->
    commands !! k = None ->
    length pre < length outs ->
    for_list summary_item (zip (pre ++ k :: rest) outs) w = (inl (KeyError k), w).
Proof.
  induction pre as [|t pre IH]; intros outs w Hreg Hk Hlen.
  - destruct outs as [|o outs]; [simpl in Hlen; lia |].
    change (zip ([] ++ k :: rest) (o :: outs)) with ((k, o) :: zip rest outs).
    rewrite for_list_cons, summary_item_eq, Hk. reflexivity.
  - destruct outs as [|o outs]; [simpl in Hlen; lia |].
    inversion Hreg as [|? ? [template Ht] Hreg']; subst.
    change (zip ((t :: pre) ++ k :: rest) (o :: outs))
      with ((t, o) :: zip (pre ++ k :: rest) outs).
    rewrite for_list_cons, summary_item_eq, Ht, IH; auto.
    simpl in Hlen. lia.
Qed.

(** X4. The summary of line 107 looks the requested identifiers up
    without the guard of line 87. When the loop has run to its end with
    [n] output files and the first requested identifier that is not
    registered stands before position [n] in the list, the task raises
    [KeyError] for that identifier in the world the loop left: the output
    files are written and the processes started, and no result is
    returned. *)
Theorem summary_key_error (pr ifs : option (list InputFile)) (d : string)
    (wid : option string) (cfg : TaskConfig) (w w' : World)
    (outs : list OutputFile) (pre rest : list string) (k : string) :
  default [] (cfg !! "artifact_types") = pre ++ k :: rest ->
  Forall (fun t => is_Some (commands !! t)) pre ->
  commands !! k = None ->
  loop env d (pre ++ k :: rest) (get_input_files pr (default [] ifs)) [] w
    = (inr outs, w') ->
  length pre < length outs ->
  command env pr ifs d wid (Some cfg) w = (inl (KeyError k), w').
Proof.
  intros Hcfg Hreg Hk Hl Hlen. rewrite command_unfold. cbv zeta.
  rewrite Hcfg, Hl.
  destruct outs as [|o outs]; [simpl in Hlen; lia |].
  rewrite (summary_items_key_error pre k rest (o :: outs) w' Hreg Hk Hlen).
  reflexivity.
Qed.



(** X5. The no-artifacts error means nothing was done. The task raises it
    exactly when no input file passes the guard of line 87, and then the
    world is the one the task started in: no output file was created, no
    file opened and no process started. *)
Theorem no_artifacts_iff_nothing_selected (pr ifs : option (list InputFile))
    (d : string) (wid : option string) (cfg : TaskConfig) (w w' : World) :
  command env pr ifs d wid (Some cfg) w = (inl no_artifacts, w') <->
  selected (default [] (cfg !! "artifact_types"))
           (get_input_files pr (default [] ifs)) = [] /\ w' = w.
Proof.
  split.
  - intros H. apply command_no_artifacts_iff in H.
    pose proof (loop_inr env _ _ _ _ _ _ _ H) as (Ho & _). cbv zeta in Ho.
    simpl in Ho.
    destruct (selected _ _) eqn:Es; [|discriminate].
    rewrite (loop_none_selected env _ _ _ _ _ Es) in H.
    injection H as <-. auto.
  - intros [H ->]. apply command_nothing_selected, H.
Qed.

End Exceptions.

Lemma summary_key_error_witness :
  command env_ok None
          (Some [input_file "MFT_C" "/in/C"; input_file "MFT_D" "/in/D"])
          "/out" (Some "wf") (Some (config ["mft"; "xyz"; "journal"])) world0
    = (inl (KeyError "xyz"),
       mkWorld 2 ["/out/0.txt"; "/out/1.txt"]
               [(["fls"; "-r"; "/in/C"], "/out/0.txt");
                (["fls"; "-r"; "/in/D"], "/out/1.txt")]).
Proof.
  apply (summary_key_error env_ok None
           (Some [input_file "MFT_C" "/in/C"; input_file "MFT_D" "/in/D"])
           "/out" (Some "wf") (config ["mft"; "xyz"; "journal"]) world0
           (mkWorld 2 ["/out/0.txt"; "/out/1.txt"]
                    [(["fls"; "-r"; "/in/C"], "/out/0.txt");
                     (["fls"; "-r"; "/in/D"], "/out/1.txt")])
           [mkOutputFile "/out/0.txt" (Some "MFT_C") ".txt" "filesystem_artifact";
            mkOutputFile "/out/1.txt" (Some "MFT_D") ".txt" "filesystem_artifact"]
           ["mft"] ["journal"] "xyz").
  - reflexivity.
  - constructor; [eexists; vm_compute; reflexivity | constructor].
  - vm_compute. reflexivity.
  - vm_compute. reflexivity.
  - simpl. lia.
Defined.

(** ** What a run does to the world *)

Section Effects.

Variable env : Env.

(** X6. The books of a run that returns a result balance: the files opened
    for writing are the paths of the returned output files, in order; one
    process was started per output file, with its standard output on that
    file; and the file-name counter has advanced by the number of output
    files. *)
Theorem returned_run_effects (pr ifs : option (list InputFile)) (d : string)
    (wid : option string) (cfg : TaskConfig) (w w' : World) (r : TaskResult) :
  command env pr ifs d wid (Some cfg) w = (inr r, w') ->
  opened w' = opened w ++ map path (output_files r) /\
  (exists procs, spawned w' = spawned w ++ procs /\
                 map snd procs = map path (output_files r)) /\
  next_uuid w' = next_uuid w + length (output_files r).
Proof.
  intros H. apply command_inr in H as (Hl & _).
  apply loop_inr in Hl as (Ho & Hn & Hop & procs & Hs & _ & Hsnd).
  simpl in Ho. rewrite Ho. repeat split.
  - exact Hop.
  - exists procs. auto.
  - rewrite outputs_for_length. exact Hn.
Qed.

Lemma loop_effects d types fs : forall outs w x w',
  loop env d types fs outs w = (x, w') ->
  exists procs extra,
    spawned w' = spawned w ++ procs /\
    opened w' = opened w ++ map snd procs ++ extra /\
    length extra <= 1 /\
    (forall outs', x = inr outs' -> extra = []).
Proof.
  induction fs as [|f fs IH]; intros outs w x w' H.
  - injection H as <- <-. exists [], []. simpl. rewrite !app_nil_r.
    repeat split; auto.
  - rewrite loop_cons in H.
    destruct (dispatch types f) as [[t template]|] eqn:Hd.
    + rewrite (loop_body_dispatch env d types f outs w t template Hd) in H.
      cbv zeta in H.
      destruct (can_open env _ _).
      * destruct (f !! "path") as [p|].
        -- destruct (can_spawn env _ _).
           ++ apply IH in H as (procs & extra & Hs & Ho & Hl & Hx).
              simpl in Hs, Ho.
              exists ((template ++ [p], path (output_for d (next_uuid w) f)) :: procs),
                     extra.
              repeat split; try assumption.
              ** rewrite Hs, <- app_assoc. reflexivity.
              ** rewrite Ho, <- app_assoc. reflexivity.
           ++ injection H as <- <-.
              exists [], [path (output_for d (next_uuid w) f)].
              simpl. rewrite app_nil_r. repeat split; auto; discriminate.
        -- injection H as <- <-.
           exists [], [path (output_for d (next_uuid w) f)].
           simpl. rewrite app_nil_r. repeat split; auto; discriminate.
      * injection H as <- <-. exists [], []. simpl. rewrite !app_nil_r.
        repeat split; auto; discriminate.
    + rewrite (loop_body_skip env d types f outs w Hd) in H. eapply IH, H.
Qed.

(** X7. However the task ends, every process it started has its standard
    output on a file the task opened for writing, in the same order, and
    at most one opened file is left without a process; that can only be
    the last one, and only when the task raised. *)
Theorem run_effects_any_outcome (pr ifs : option (list InputFile))
    (d : string) (wid : option string) (task_config : option TaskConfig)
    (w w' : World) (x : exception + TaskResult) :
  command env pr ifs d wid task_config w = (x, w') ->
  exists procs extra,
    spawned w' = spawned w ++ procs /\
    opened w' = opened w ++ map snd procs ++ extra /\
    length extra <= 1 /\
    (forall r, x = inr r -> extra = []).
Proof.
  destruct task_config as [cfg|].
  - rewrite command_unfold. cbv zeta.
    destruct (loop env d _ _ [] w) as [[e|outs] w1] eqn:El.
    + intros [= <- <-].
      destruct (loop_effects _ _ _ _ _ _ _ El) as (procs & extra & Hs & Ho & Hl & _).
      exists procs, extra. repeat split; try assumption. discriminate.
    + destruct (loop_effects _ _ _ _ _ _ _ El) as (procs & extra & Hs & Ho & Hl & Hx).
      pose proof (Hx outs eq_refl) as ->. intros H.
      assert (Hw : w' = w1).
      { destruct outs as [|o outs].
        - injection H as _ <-. reflexivity.
        - destruct (for_list summary_item _ w1) as [[e|summary] w2] eqn:Es;
            apply for_list_summary_item in Es as [-> _];
            injection H as _ <-; reflexivity. }
      subst w'. exists procs, []. repeat split; auto.
  - intros [= <- <-]. exists [], []. simpl. rewrite !app_nil_r.
    repeat split; auto.
Qed.

End Effects.

Lemma no_artifacts_iff_nothing_selected_witness :
  command env_ok None (Some [input_file "random.txt" "/in/random.txt"]) "/out"
          (Some "wf") (Some (config ["mft"; "journal"])) world0
    = (inl no_artifacts, world0).
Proof.
  apply (no_artifacts_iff_nothing_selected env_ok None
           (Some [input_file "random.txt" "/in/random.txt"]) "/out"
           (Some "wf") (config ["mft"; "journal"]) world0 world0).
  split; reflexivity.
Defined.

Lemma returned_run_effects_witness :
  opened (mkWorld 2 ["/out/0.txt"; "/out/1.txt"]
            [(["fls"; "-r"; "/in/MFT"], "/out/0.txt");
             (["icat"; "/in/J"], "/out/1.txt")])
    = opened world0 ++ ["/out/0.txt"; "/out/1.txt"].
Proof.
  pose (outs :=
    [mkOutputFile "/out/0.txt" (Some "MFT") ".txt" "filesystem_artifact";
     mkOutputFile "/out/1.txt" (Some "UsnJrnl_journal") ".txt"
                  "filesystem_artifact"]).
  pose (r := mkTaskResult outs (Some "wf")
               "fls -r /out/0.txt; icat /out/1.txt" ∅).
  pose (w' := mkWorld 2 ["/out/0.txt"; "/out/1.txt"]
                [(["fls"; "-r"; "/in/MFT"], "/out/0.txt");
                 (["icat"; "/in/J"], "/out/1.txt")]).
  destruct (returned_run_effects env_ok None
              (Some [input_file "MFT" "/in/MFT";
                     input_file "UsnJrnl_journal" "/in/J"])
              "/out" (Some "wf") (config ["mft"; "journal"]) world0 w' r)
    as (Ho & _).
  - vm_compute. reflexivity.
  - exact Ho.
Defined.

Lemma run_effects_any_outcome_witness :
  exists procs extra,
    [(["fls"; "-r"; "/in/MFT"], "/out/0.txt")] = spawned world0 ++ procs /\
    ["/out/0.txt"; "/out/1.txt"] = opened world0 ++ map snd procs ++ extra /\
    length extra <= 1.
Proof.
  pose (env := mkEnv (fun _ _ => true)
                     (fun _ argv => negb (length argv =? 2))).
  pose (w' := mkWorld 2 ["/out/0.txt"; "/out/1.txt"]
                [(["fls"; "-r"; "/in/MFT"], "/out/0.txt")]).
  destruct (run_effects_any_outcome env None
              (Some [input_file "MFT" "/in/MFT";
                     input_file "UsnJrnl_journal" "/in/J"])
              "/out" (Some "wf") (Some (config ["mft"; "journal"]))
              world0 w' (inl OSError))
    as (procs & extra & Hs & Ho & Hl & _).
  - vm_compute. reflexivity.
  - exists procs, extra. auto.
Defined.

(** ** A dispatched file without a path *)

(** X8. A file that passes the guard but has no ["path"] entry makes the
    task fail late: its output file has been named and opened for writing
    when [Popen] raises [TypeError] on the missing argument, no process is
    started, and the loop ends there whatever files follow. *)
Theorem missing_path_raises (env : Env) (d : string) (types : list string)
    (f : InputFile) (rest : list InputFile) (outs : list OutputFile)
    (w : World) :
  is_dispatched types f = true ->
  f !! "path" = None ->
  (forall w' q, can_open env w' q = true) ->
  loop env d types (f :: rest) outs w =
  (inl TypeError,
   mkWorld (S (next_uuid w))
           (opened w ++ [path (output_for d (next_uuid w) f)])
           (spawned w)).
Proof.
  intros Hd Hp Hopen. apply is_dispatched_true in Hd as (t & template & Hd).
  rewrite loop_cons, (loop_body_dispatch env d types f outs w t template Hd).
  cbv zeta. rewrite Hopen, Hp. reflexivity.
Qed.

Lemma missing_path_raises_witness :
  loop env_ok "/out" ["mft"]
       [{[ "display_name" := "MFT" ]}; input_file "MFT2" "/in/MFT2"] [] world0
    = (inl TypeError, mkWorld 1 ["/out/0.txt"] []).
Proof.
  apply (missing_path_raises env_ok "/out" ["mft"] {[ "display_name" := "MFT" ]}
           [input_file "MFT2" "/in/MFT2"] [] world0).
  - vm_compute. reflexivity.
  - vm_compute. reflexivity.
  - reflexivity.
Defined.

(** ** Letter case *)

Section LetterCase.
Import Str StrFacts.

Lemma lower_ascii_not_upper c : is_upper (lower_ascii c) = false.
Proof. destruct c as [[] [] [] [] [] [] [] []]; vm_compute; reflexivity. Qed.

Lemma lower_has_no_upper s : has_upper (lower s) = false.
Proof.
  induction s as [|c s IH]; [reflexivity |].
  simpl. rewrite lower_ascii_not_upper, IH. reflexivity.
Qed.

Lemma has_upper_app a b : has_upper (a +:+ b) = has_upper a || has_upper b.
Proof.
  induction a as [|c a IH]; [reflexivity |].
  rewrite app_cons. simpl. rewrite IH, orb_assoc. reflexivity.
Qed.

Lemma substring_has_no_upper t s :
  is_substring t s -> has_upper s = false -> has_upper t = false.
Proof.
  intros (pre & post & ->). rewrite !has_upper_app.
  destruct (has_upper t); [|reflexivity].
  rewrite orb_true_r. intros H. discriminate.
Qed.

(** X9. Only the display name is lowercased (line 84), the requested
    identifiers are compared as they are: an identifier with a capital
    ASCII letter in it is never the matched type of any file, and a task
    whose requested identifiers all hold a capital letter raises the
    no-artifacts error whatever its input files are. *)
Theorem uppercase_type_never_matches (types : list string) :
  (forall t f, has_upper t = true ->
               matched_type types (file_name_of f) <> Some t) /\
  (Forall (fun t => has_upper t = true) types ->
   forall env pr ifs d wid (cfg : TaskConfig) w,
     cfg !! "artifact_types" = Some types ->
     command env pr ifs d wid (Some cfg) w = (inl no_artifacts, w)).
Proof.
  assert (Hnever : forall R t f, has_upper t = true ->
                     matched_type R (file_name_of f) <> Some t).
  { intros R t f Hu Hm. apply matched_type_Some in Hm as (_ & _ & _ & Hs & _).
    apply substring_has_no_upper in Hs; [congruence |].
    apply lower_has_no_upper. }
  split; [apply Hnever |].
  intros Hall env pr ifs d wid cfg w Hcfg.
  apply command_nothing_selected. rewrite Hcfg. simpl.
  induction (get_input_files pr (default [] ifs)) as [|f fs IH]; [reflexivity |].
  rewrite (selected_cons_skip types f fs); [exact IH |].
  unfold dispatch.
  destruct (matched_type types (file_name_of f)) as [t|] eqn:Hm; [|reflexivity].
  exfalso. apply (Hnever types t f); [|exact Hm].
  unfold matched_type in Hm. apply find_some in Hm as [Hin _].
  rewrite Forall_forall in Hall. apply Hall, list_elem_of_In, Hin.
Qed.

End LetterCase.

Lemma uppercase_type_never_matches_witness :
  command env_ok None (Some [input_file "MFT" "/in/MFT"]) "/out" (Some "wf")
          (Some (config ["MFT"; "Journal"])) world0
    = (inl no_artifacts, world0).
Proof.
  apply (proj2 (uppercase_type_never_matches ["MFT"; "Journal"])).
  - repeat constructor.
  - reflexivity.
Defined.

(** ** Requested types *)

Lemma matched_type_over_app (R R' : list string) (file_name : string) :
  matched_type (R ++ R') file_name =
  match matched_type R file_name with
  | Some t => Some t
  | None => matched_type R' file_name
  end.
Proof.
  unfold matched_type. induction R as [|r R IH]; [reflexivity |].
  simpl. destruct (Str.contains r file_name); [reflexivity | exact IH].
Qed.

(** X10. Requested types added at the end of the list never change the
    type of a file that already had one; they are tried, in order, only
    for the files the first list leaves unmatched. *)
Theorem matched_type_app (R R' : list string) (file_name : string) :
  matched_type (R ++ R') file_name =
    match matched_type R file_name with
    | Some t => Some t
    | None => matched_type R' file_name
    end /\
  (forall t, matched_type R file_name = Some t ->
             matched_type (R ++ R') file_name = Some t) /\
  (matched_type R file_name = None ->
   matched_type (R ++ R') file_name = matched_type R' file_name).
Proof.
  rewrite matched_type_over_app. split; [reflexivity |]. split.
  - intros t ->. reflexivity.
  - intros ->. reflexivity.
Qed.

Lemma matched_type_app_witness :
  matched_type (["journal"] ++ ["mft"]) "mft_journal.bin" = Some "journal" /\
  matched_type (["journal"] ++ ["mft"]) "mft.bin" = matched_type ["mft"] "mft.bin".
Proof.
  destruct (matched_type_app ["journal"] ["mft"] "mft_journal.bin") as (_ & H & _).
  destruct (matched_type_app ["journal"] ["mft"] "mft.bin") as (_ & _ & H').
  split.
  - apply H. vm_compute. reflexivity.
  - apply H'. vm_compute. reflexivity.
Defined.

(** X11. An empty identifier is a substring of every name and is false as
    a truth value (line 87): with an empty identifier at the head of the
    requested types every file is matched to it and stepped over, and the
    task raises the no-artifacts error without having done anything. *)
Theorem empty_identifier_first (R : list string) :
  (forall f, matched_type ("" :: R) (file_name_of f) = Some "" /\
             dispatch ("" :: R) f = None) /\
  (forall env pr ifs d wid (cfg : TaskConfig) w,
     cfg !! "artifact_types" = Some ("" :: R) ->
     command env pr ifs d wid (Some cfg) w = (inl no_artifacts, w)).
Proof.
  assert (Hm : forall f, matched_type ("" :: R) (file_name_of f) = Some "").
  { intros f. unfold matched_type. simpl.
    rewrite StrFacts.contains_empty_l. reflexivity. }
  assert (Hd : forall f, dispatch ("" :: R) f = None).
  { intros f. unfold dispatch. rewrite Hm. reflexivity. }
  split; [intros f; split; [apply Hm | apply Hd] |].
  intros env pr ifs d wid cfg w Hcfg.
  apply command_nothing_selected. rewrite Hcfg. simpl.
  induction (get_input_files pr (default [] ifs)) as [|f fs IH]; [reflexivity |].
  rewrite (selected_cons_skip ("" :: R) f fs); [exact IH | apply Hd].
Qed.

Lemma empty_identifier_first_witness :
  command env_ok None (Some [input_file "MFT" "/in/MFT"]) "/out" (Some "wf")
          (Some (config [""; "mft"])) world0
    = (inl no_artifacts, world0).
Proof.
  apply (proj2 (empty_identifier_first ["mft"])). reflexivity.
Defined.

(** ** The form and the registry *)

Lemma option_values_artifact_types :
  option_values TASK_METADATA "artifact_types" = supported.
Proof. reflexivity. Qed.

Lemma supported_registered t :
  In t supported -> t <> "" /\ is_Some (commands !! t).
Proof.
  simpl. intros [<- | [<- | [<- | [<- | [<- | []]]]]];
    (split; [discriminate | eexists; reflexivity]).
Qed.

Lemma registered_supported t : is_Some (commands !! t) -> In t supported.
Proof.
  intros [template H]. unfold commands in H.
  apply elem_of_list_to_map_2 in H. apply list_elem_of_In in H. simpl in H.
  destruct H as [H | [H | [H | [H | [H | []]]]]]; injection H as <- _;
    simpl; auto 6.
Qed.

(** X12. The identifiers the form of [TASK_METADATA] offers for
    ["artifact_types"] are exactly the keys of [commands]. So with
    requested types ticked in the form, a matched type always passes the
    guard of line 87 and the summary of line 107 never raises
    [KeyError]. *)
Theorem form_options_registered :
  (forall t, In t (option_values TASK_METADATA "artifact_types") <->
             is_Some (commands !! t)) /\
  (forall types,
     Forall (fun t => In t (option_values TASK_METADATA "artifact_types")) types ->
     (forall f t, matched_type types (file_name_of f) = Some t ->
                  exists template, dispatch types f = Some (t, template)) /\
     (forall env pr ifs d wid (cfg : TaskConfig) w k w',
        cfg !! "artifact_types" = Some types ->
        command env pr ifs d wid (Some cfg) w <> (inl (KeyError k), w'))).
Proof.
  rewrite option_values_artifact_types. split.
  - intros t. split; [apply supported_registered | apply registered_supported].
  - intros types Hall. rewrite Forall_forall in Hall. split.
    + intros f t Hm. unfold dispatch. rewrite Hm.
      assert (Hin : In t supported).
      { unfold matched_type in Hm. apply find_some in Hm as [Hin _].
        apply Hall, list_elem_of_In, Hin. }
      apply supported_registered in Hin as [Hne [template Ht]].
      exists template. rewrite Ht. simpl.
      destruct t; [contradiction | reflexivity].
    + intros env pr ifs d wid cfg w k w' Hcfg H.
      apply command_key_error in H as [Hin Hnone].
      rewrite Hcfg in Hin. simpl in Hin.
      apply list_elem_of_In, Hall, supported_registered in Hin as [_ [x Hx]].
      congruence.
Qed.

Lemma form_options_registered_witness :
  exists template,
    dispatch ["io3"; "boot_log"] (input_file "Boot_Log.bin" "/in/b")
      = Some ("boot_log", template).
Proof.
  assert (Hall : Forall (fun t => In t (option_values TASK_METADATA
                                                     "artifact_types"))
                        ["io3"; "boot_log"]).
  { constructor; [simpl; auto 6 |]. constructor; [simpl; auto 6 |]. constructor. }
  apply (proj1 (proj2 form_options_registered ["io3"; "boot_log"] Hall)
               (input_file "Boot_Log.bin" "/in/b") "boot_log").
  vm_compute. reflexivity.
Defined.

(** ** A run in which nothing fails *)

Section GoodRun.

Variable env : Env.
Hypothesis open_ok : forall w q, can_open env w q = true.
Hypothesis spawn_ok : forall w argv, can_spawn env w argv = true.

Lemma loop_succeeds d types fs : forall outs w,
  Forall (fun f : InputFile => is_Some (f !! "path")) fs ->
  exists w',
    loop env d types fs outs w =
    (inr (outs ++ outputs_for d (next_uuid w) (selected types fs)), w').
Proof.
  induction fs as [|f fs IH]; intros outs w Hp.
  - exists w. simpl. rewrite app_nil_r. reflexivity.
  - inversion Hp as [|? ? [p Hf] Hfs]; subst. rewrite loop_cons.
    destruct (dispatch types f) as [[t template]|] eqn:Hd.
    + rewrite (loop_body_dispatch env d types f outs w t template Hd).
      cbv zeta. rewrite open_ok, Hf, spawn_ok.
      rewrite (selected_cons_keep _ _ _ _ _ Hd). cbn [outputs_for].
      destruct (IH (outs ++ [output_for d (next_uuid w) f])
                   (mkWorld (S (next_uuid w))
                            (opened w ++ [path (output_for d (next_uuid w) f)])
                            (spawned w ++
                               [(template ++ [p],
                                 path (output_for d (next_uuid w) f))]))
                   Hfs) as [w' Hw'].
      cbn [next_uuid] in Hw'.
      exists w'. rewrite Hw', <- app_assoc. reflexivity.
    + rewrite (loop_body_skip env d types f outs w Hd).
      rewrite (selected_cons_skip _ _ _ Hd). apply IH, Hfs.
Qed.

(** X13. When files can be opened and processes started, every input file
    has a ["path"] entry and every requested type is registered, the task
    raises nothing but the no-artifacts error: as soon as one input file
    passes the guard it returns a result, with one output file per such
    input file, in input order. *)
Theorem good_run_returns (pr ifs : option (list InputFile)) (d : string)
    (wid : option string) (cfg : TaskConfig) (w : World) :
  let types := default [] (cfg !! "artifact_types") in
  let inputs := get_input_files pr (default [] ifs) in
  Forall (fun f : InputFile => is_Some (f !! "path")) inputs ->
  Forall (fun t => is_Some (commands !! t)) types ->
  selected types inputs <> [] ->
  exists r w',
    command env pr ifs d wid (Some cfg) w = (inr r, w') /\
    output_files r = outputs_for d (next_uuid w) (selected types inputs).
Proof.
  intros types inputs Hp Hreg Hsel.
  destruct (loop_succeeds d types inputs [] w Hp) as [w' Hl]. simpl in Hl.
  destruct (outputs_for d (next_uuid w) (selected types inputs))
    as [|o outs] eqn:Eo.
  - destruct (selected types inputs); [contradiction | discriminate].
  - destruct (command_returns_when_registered env pr ifs d wid cfg w w' o outs
                Hreg Hl) as [r Hr].
    exists r, w'. split; [exact Hr |].
    apply command_inr in Hr as (Hl' & _).
    fold types inputs in Hl'. rewrite Hl in Hl'. injection Hl' as <-.
    reflexivity.
Qed.

End GoodRun.

Lemma good_run_returns_witness :
  exists r w',
    command env_ok None
            (Some [input_file "MFT" "/in/MFT";
                   input_file "random.txt" "/in/r";
                   input_file "UsnJrnl_journal" "/in/J"])
            "/out" (Some "wf") (Some (config ["mft"; "journal"])) world0
      = (inr r, w') /\
    output_files r =
      [mkOutputFile "/out/0.txt" (Some "MFT") ".txt" "filesystem_artifact";
       mkOutputFile "/out/1.txt" (Some "UsnJrnl_journal") ".txt"
                    "filesystem_artifact"].
Proof.
  apply (good_run_returns env_ok (fun _ _ => eq_refl) (fun _ _ => eq_refl)
           None
           (Some [input_file "MFT" "/in/MFT";
                  input_file "random.txt" "/in/r";
                  input_file "UsnJrnl_journal" "/in/J"])
           "/out" (Some "wf") (config ["mft"; "journal"]) world0).
  - repeat constructor; eexists; vm_compute; reflexivity.
  - repeat constructor; eexists; vm_compute; reflexivity.
  - vm_compute. discriminate.
Defined.

(** ** Longer display names *)

Section Renaming.
Import Str StrFacts.

Lemma string_app_assoc (a b c : string) : (a +:+ b) +:+ c = a +:+ (b +:+ c).
Proof.
  induction a as [|x a IH]; [reflexivity |].
  rewrite !app_cons, IH. reflexivity.
Qed.

Lemma lower_app (a b : string) : lower (a +:+ b) = lower a +:+ lower b.
Proof.
  induction a as [|x a IH]; [reflexivity |].
  rewrite app_cons. simpl. rewrite IH, app_cons. reflexivity.
Qed.

Lemma is_substring_extend t s pre post :
  is_substring t s -> is_substring t (pre +:+ s +:+ post).
Proof.
  intros (a & b & ->). exists (pre +:+ a), (b +:+ post).
  rewrite !string_app_assoc. reflexivity.
Qed.

(** X14. For display names made of ASCII characters, putting ASCII text
    before or after the name never loses a match: if a file named [N] has
    a matched type, so has a file named [pre ++ N ++ post], whatever the
    letter case of the added text; the type it gets is the old one or a
    requested type listed before it. *)
Theorem longer_name_still_matches (R : list string) (N pre post t : string) :
  is_ascii N = true -> is_ascii pre = true -> is_ascii post = true ->
  matched_type R (file_name_of {[ "display_name" := N ]}) = Some t ->
  exists R1 R2 t',
    R = R1 ++ t :: R2 /\
    matched_type R (file_name_of {[ "display_name" := pre +:+ N +:+ post ]})
      = Some t' /\
    In t' (R1 ++ [t]).
Proof.
  intros _ _ _ H. unfold file_name_of in *.
  rewrite lookup_singleton_eq in *. simpl default in *.
  apply matched_type_Some in H as (R1 & R2 & -> & Hs & _).
  exists R1, R2.
  assert (Hs' : is_substring t (lower (pre +:+ N +:+ post))).
  { rewrite !lower_app. apply is_substring_extend, Hs. }
  rewrite matched_type_over_app.
  destruct (matched_type R1 (lower (pre +:+ N +:+ post))) as [t'|] eqn:E.
  - exists t'. repeat split. apply in_or_app. left.
    unfold matched_type in E. apply find_some in E as [E _]. exact E.
  - exists t. repeat split.
    + unfold matched_type. simpl.
      apply contains_spec in Hs'. rewrite Hs'. reflexivity.
    + apply in_or_app. right. left. reflexivity.
Qed.

End Renaming.

Lemma longer_name_still_matches_witness :
  exists R1 R2 t',
    ["journal"; "mft"] = R1 ++ "mft" :: R2 /\
    matched_type ["journal"; "mft"]
      (file_name_of {[ "display_name" := "Journal_of_" +:+ "MFT" +:+ ".bin" ]})
      = Some t' /\
    In t' (R1 ++ ["mft"]).
Proof.
  apply (longer_name_still_matches ["journal"; "mft"] "MFT" "Journal_of_"
           ".bin" "mft").
  - reflexivity.
  - reflexivity.
  - reflexivity.
  - vm_compute. reflexivity.
Defined.

(** ** The entries of the summary *)

(** X15. The summary of a returned result (line 107) has one entry per pair
    of [zip(artifact_types, output_files)], joined with ["; "]: as many
    entries as the shorter of the two lists has elements, the i-th one
    being the template registered for the i-th requested type followed by
    the path of the i-th output file, joined with spaces. *)
Theorem summary_entries (env : Env) (pr ifs : option (list InputFile))
    (d : string) (wid : option string) (cfg : TaskConfig) (w w' : World)
    (r : TaskResult) :
  command env pr ifs d wid (Some cfg) w = (inr r, w') ->
  let types := default [] (cfg !! "artifact_types") in
  exists entries,
    command_summary r = Str.join "; " entries /\
    length entries = min (length types) (length (output_files r)) /\
    forall i t o,
      types !! i = Some t -> output_files r !! i = Some o ->
      exists template,
        commands !! t = Some template /\
        entries !! i = Some (Str.join " " (template ++ [path o])).
Proof.
  intros H types. rewrite command_unfold in H. cbv zeta in H. fold types in H.
  destruct (loop env d _ _ [] w) as [[e|[|o outs]] w1]; try discriminate.
  destruct (for_list summary_item _ w1) as [[e|summary] w2] eqn:Es;
    [discriminate |].
  injection H as <- _. simpl command_summary. simpl output_files.
  exists summary. split; [reflexivity |].
  clear -Es. revert Es. generalize (o :: outs) as fs. clear o outs.
  revert summary w1 w2. induction types as [|t ts IH]; intros summary w1 w2 fs Es.
  - injection Es as <- _. split; [reflexivity |]. intros i t o H. discriminate.
  - destruct fs as [|f fs].
    + injection Es as <- _. split; [reflexivity |]. intros i t' o _ H.
      discriminate.
    + change (zip (t :: ts) (f :: fs)) with ((t, f) :: zip ts fs) in Es.
      rewrite for_list_cons, summary_item_eq in Es.
      destruct (commands !! t) as [template|] eqn:Et; [|discriminate].
      destruct (for_list summary_item (zip ts fs) w1) as [[e|ys] w3] eqn:El;
        [discriminate |].
      injection Es as <- _.
      destruct (IH _ _ _ _ El) as [Hlen Hnth].
      split; [simpl; rewrite Hlen; reflexivity |].
      intros [|i] t' o Ht Ho.
      * injection Ht as <-. injection Ho as <-. exists template. auto.
      * apply (Hnth i t' o Ht Ho).
Qed.

Lemma summary_entries_witness :
  exists entries,
    "fls -r /out/0.txt; icat /out/1.txt" = Str.join "; " entries /\
    length entries = 2.
Proof.
  pose (outs :=
    [mkOutputFile "/out/0.txt" (Some "MFT") ".txt" "filesystem_artifact";
     mkOutputFile "/out/1.txt" (Some "UsnJrnl_journal") ".txt"
                  "filesystem_artifact"]).
  pose (r := mkTaskResult outs (Some "wf")
               "fls -r /out/0.txt; icat /out/1.txt" ∅).
  pose (w' := mkWorld 2 ["/out/0.txt"; "/out/1.txt"]
                [(["fls"; "-r"; "/in/MFT"], "/out/0.txt");
                 (["icat"; "/in/J"], "/out/1.txt")]).
  destruct (summary_entries env_ok None
              (Some [input_file "MFT" "/in/MFT";
                     input_file "UsnJrnl_journal" "/in/J"])
              "/out" (Some "wf") (config ["mft"; "journal"]) world0 w' r)
    as (entries & Hj & Hl & _).
  - vm_compute. reflexivity.
  - exists entries. split; [exact Hj | exact Hl].
Defined.

(** ** Unambiguous names *)

(** X16. The order of the requested types matters for ambiguous names
    only: when exactly one requested identifier [t] occurs in the
    lowercased display name, the matched type is [t] wherever [t] stands
    in the list, so any reordering of the requested types gives the same
    matched type. *)
Theorem unambiguous_name_order_free (R : list string) (file_name t : string) :
  In t R ->
  Str.is_substring t file_name ->
  (forall u, In u R -> Str.is_substring u file_name -> u = t) ->
  matched_type R file_name = Some t /\
  forall R', Permutation R R' -> matched_type R' file_name = Some t.
Proof.
  assert (Hgen : forall L, In t L -> Str.is_substring t file_name ->
            (forall u, In u L -> Str.is_substring u file_name -> u = t) ->
            matched_type L file_name = Some t).
  { intros L Hin Hs Huniq.
    destruct (matched_type L file_name) as [u|] eqn:E.
    - unfold matched_type in E. apply find_some in E as [Hu Hc].
      apply StrFacts.contains_spec in Hc. f_equal. apply Huniq; assumption.
    - apply matched_type_None in E. rewrite Forall_forall in E.
      exfalso. apply (E t); [apply list_elem_of_In, Hin | exact Hs]. }
  intros Hin Hs Huniq. split; [apply Hgen; assumption |].
  intros R' HP. apply Hgen.
  - eapply Permutation_in; [exact HP | exact Hin].
  - exact Hs.
  - intros u Hu. apply Huniq. eapply Permutation_in; [|exact Hu].
    symmetry. exact HP.
Qed.

Lemma unambiguous_name_order_free_witness :
  matched_type ["journal"; "mft"] "mft_c.bin" = Some "mft" /\
  forall R', Permutation ["journal"; "mft"] R' ->
             matched_type R' "mft_c.bin" = Some "mft".
Proof.
  apply (unambiguous_name_order_free ["journal"; "mft"] "mft_c.bin" "mft").
  - simpl. auto.
  - exists "", "_c.bin". reflexivity.
  - simpl. intros u [<- | [<- | []]] H; [|reflexivity].
    apply StrFacts.contains_spec in H. vm_compute in H. discriminate.
Defined.
